(** * esi-leap: the interval-reservation engine of [esi_leap/db/sqlalchemy/api.py]

    A shallow embedding of the database API of esi-leap (offers, leases and
    owner changes as time intervals over a resource) together with the
    claim controller of [esi_leap/api/controllers/v1/offer.py], and the
    properties of the engine proved about that embedding.

    Conventions.
    - A [datetime] is a point of a discrete, totally ordered time line: [Z].
    - A table is the list of its rows in storage order; a query is a
      computation on that list ([filter], [order_by], [first], [count]).
    - A function that reads or writes the session is a function of the
      [store]; it yields a [result] and the store it leaves behind. *)

From Stdlib Require Import ZArith List String Bool Lia.
From Stdlib Require Import Sorted Permutation.
Import ListNotations.

Open Scope string_scope.
Open Scope list_scope.
Open Scope Z_scope.

(** ** Data model *)

(** Modelled from the spec: [esi_leap/common/statuses.py] is not among the
    sources; the constants are the status values of section 3. *)
Inductive status : Type :=
  | AVAILABLE | CREATED | ACTIVE | CANCELLED | EXPIRED | CLAIMED
  | COMPLETED | ERROR.

Definition status_eqb (a b : status) : bool :=
  match a, b with
  | AVAILABLE, AVAILABLE | CREATED, CREATED | ACTIVE, ACTIVE
  | CANCELLED, CANCELLED | EXPIRED, EXPIRED | CLAIMED, CLAIMED
  | COMPLETED, COMPLETED | ERROR, ERROR => true
  | _, _ => false
  end.

(** [column.in_([...])] *)
Definition status_in (l : list status) (s : status) : bool :=
  existsb (status_eqb s) l.

(** A JSON property bag, [{'foo': 'bar'}]. *)
Definition properties_t : Type := list (string * string).

(** Modelled from the spec: [esi_leap/db/sqlalchemy/models.py] is not among
    the sources; the columns are the fields of section 3 and of the rows the
    tests build. *)
Module Offer.
Record t : Type := mk {
  uuid : string;
  project_id : string;
  lessee_id : option string;
  name : string;
  resource_type : string;
  resource_uuid : string;
  start_time : Z;
  end_time : Z;
  status : status;
  properties : properties_t
}.
End Offer.

Module Lease.
Record t : Type := mk {
  uuid : string;
  project_id : string;
  owner_id : string;
  name : string;
  offer_uuid : option string;
  resource_type : string;
  resource_uuid : string;
  start_time : Z;
  end_time : Z;
  status : status;
  properties : properties_t
}.
End Lease.

Module OwnerChange.
Record t : Type := mk {
  uuid : string;
  from_owner_id : string;
  to_owner_id : string;
  resource_type : string;
  resource_uuid : string;
  start_time : Z;
  end_time : Z;
  status : status
}.
End OwnerChange.

(** The three tables the session reads and writes. *)
Record store : Type := mkStore {
  offers : list Offer.t;
  leases : list Lease.t;
  owner_changes : list OwnerChange.t
}.

(** ** Exceptions and results *)

(** Modelled from the spec: [esi_leap/common/exception.py] is not among the
    sources; these are the error kinds of section 7, with the two errors
    the Python runtime and SQLAlchemy raise on the paths modelled here. *)
Inductive exn : Type :=
  | OfferNotFound (offer_uuid : string)
  | LeaseNotFound (lease_uuid : string)
  | OwnerChangeNotFound (owner_change_uuid : string)
  | InvalidTimeRange (resource : string) (start_time end_time : Z)
  | ResourceTimeConflict (resource_uuid resource_type : string)
  | OfferNoTimeAvailabilities (offer_uuid : string) (start_time end_time : Z)
  | AttributeError          (* attribute access on [None] *)
  | MultipleResultsFound.   (* [one_or_none()] on several rows *)

Inductive result (A : Type) : Type :=
  | Return (a : A)
  | Raise (e : exn).
Arguments Return {A} a.
Arguments Raise {A} e.

Definition is_not_found (e : exn) : bool :=
  match e with
  | OfferNotFound _ | LeaseNotFound _ | OwnerChangeNotFound _ => true
  | _ => false
  end.

(** ** Query helpers *)

(** [Query.first()] *)
Definition first {A : Type} (q : list A) : option A := hd_error q.

(** [Query.one_or_none()] *)
Definition one_or_none {A : Type} (q : list A) : result (option A) :=
  match q with
  | [] => Return None
  | [x] => Return (Some x)
  | _ :: _ :: _ => Raise MultipleResultsFound
  end.

(** Truth value of an optional row: [if conflict:], [if not offer_ref:]. *)
Definition truthy {A : Type} (o : option A) : bool :=
  match o with Some _ => true | None => false end.

(** SQL [column == value] on a nullable string column: never true on NULL. *)
Definition null_eqb (c : option string) (v : string) : bool :=
  match c with Some x => String.eqb x v | None => false end.

(** ** The overlap test

    The filter written out in [offer_verify_availability] and three times in
    [resource_verify_availability]:
<<
    ((start >= M.start_time) & (start < M.end_time)) |
    ((end > M.start_time) & (end <= M.end_time)) |
    ((start <= M.start_time) & (end >= M.end_time))
>> *)
Definition time_conflict (start end_ s e : Z) : bool :=
  ((start >=? s) && (start <? e))
  || ((end_ >? s) && (end_ <=? e))
  || ((start <=? s) && (end_ >=? e)).

(** The same test as a proposition. *)
Definition overlap3 (start end_ s e : Z) : Prop :=
  (start >= s /\ start < e) \/ (end_ > s /\ end_ <= e)
  \/ (start <= s /\ end_ >= e).

(** ** Offers *)

(** [offer_verify_availability(offer_ref, start, end)] *)
Definition offer_verify_availability (offer_ref : Offer.t) (start end_ : Z)
    (st : store) : result unit :=
  if (start <? Offer.start_time offer_ref)
     || (end_ >? Offer.end_time offer_ref)
  then Raise (OfferNoTimeAvailabilities (Offer.uuid offer_ref) start end_)
  else
    let leases_q :=
      filter (fun l => null_eqb (Lease.offer_uuid l) (Offer.uuid offer_ref)
                       && (status_eqb (Lease.status l) CREATED
                           || status_eqb (Lease.status l) ACTIVE))
             (leases st) in
    let conflict :=
      first (filter (fun l => time_conflict start end_ (Lease.start_time l)
                                            (Lease.end_time l))
                    leases_q) in
    if truthy conflict
    then Raise (OfferNoTimeAvailabilities (Offer.uuid offer_ref) start end_)
    else Return tt.

(** ** Resources *)

(** [resource_verify_availability(r_type, r_uuid, start, end,
    is_owner_change=False)] *)
Definition resource_verify_availability (r_type r_uuid : string)
    (start end_ : Z) (is_owner_change : bool) (st : store) : result unit :=
  (* check conflict with offers *)
  let offers_q :=
    filter (fun o => String.eqb (Offer.resource_uuid o) r_uuid
                     && String.eqb (Offer.resource_type o) r_type
                     && status_eqb (Offer.status o) AVAILABLE)
           (offers st) in
  let offer_conflict :=
    first (filter (fun o => time_conflict start end_ (Offer.start_time o)
                                          (Offer.end_time o))
                  offers_q) in
  if truthy offer_conflict then Raise (ResourceTimeConflict r_uuid r_type)
  else
  (* check conflict with leases *)
  let leases_q :=
    filter (fun l => String.eqb (Lease.resource_uuid l) r_uuid
                     && String.eqb (Lease.resource_type l) r_type
                     && status_in [CREATED; ACTIVE] (Lease.status l))
           (leases st) in
  let lease_conflict :=
    first (filter (fun l => time_conflict start end_ (Lease.start_time l)
                                          (Lease.end_time l))
                  leases_q) in
  if truthy lease_conflict then Raise (ResourceTimeConflict r_uuid r_type)
  else
  (* check conflict with ownership changes *)
  if negb is_owner_change then Return tt
  else
  let ocs :=
    filter (fun c => String.eqb (OwnerChange.resource_uuid c) r_uuid
                     && String.eqb (OwnerChange.resource_type c) r_type
                     && status_in [CREATED; ACTIVE] (OwnerChange.status c))
           (owner_changes st) in
  let oc_conflict :=
    first (filter (fun c => time_conflict start end_
                                          (OwnerChange.start_time c)
                                          (OwnerChange.end_time c))
                  ocs) in
  if truthy oc_conflict then Raise (ResourceTimeConflict r_uuid r_type)
  else Return tt.

(** [Query.count()] *)
Definition count {A : Type} (q : list A) : nat := List.length q.

(** [straddles]: the filter of [resource_check_admin]:
<<
    ((start_time >= OC.start_time) & (start_time < OC.end_time) &
     (end_time > OC.end_time)) |
    ((start_time < OC.start_time) & (end_time > OC.start_time) &
     (end_time < OC.end_time)) |
    ((start_time <= OC.start_time) & (end_time >= OC.end_time))
>> *)
Definition straddles (start_time end_time s e : Z) : bool :=
  ((start_time >=? s) && (start_time <? e) && (end_time >? e))
  || ((start_time <? s) && (end_time >? s) && (end_time <? e))
  || ((start_time <=? s) && (end_time >=? e)).

(** The [filters] dictionary of [owner_change_get_all]: the four keys the
    function pops, and the two column keys its callers leave as keyword
    arguments of [filter_by].  An absent key is [None]. *)
Module OwnerChangeFilters.
Record t : Type := mk {
  resource_type : option string;
  resource_uuid : option string;
  start_time : option Z;
  end_time : option Z;
  status : option (list status);
  from_or_to_owner_id : option string
}.
Definition empty : t := mk None None None None None None.
End OwnerChangeFilters.

(** [filter_by(key=value)] for a key that may be absent from the filters. *)
Definition filter_by {A : Type} (col : A -> string) (v : option string)
    (q : list A) : list A :=
  match v with
  | Some x => filter (fun r => String.eqb (col r) x) q
  | None => q
  end.

(** [owner_change_get_all(filters)].  A [datetime] is always true in a
    condition; a list and a string are true when they are not empty. *)
Definition owner_change_get_all (filters : OwnerChangeFilters.t)
    (st : store) : list OwnerChange.t :=
  let query := owner_changes st in
  let start := OwnerChangeFilters.start_time filters in
  let end_ := OwnerChangeFilters.end_time filters in
  let status := OwnerChangeFilters.status filters in
  let from_or_to_owner_id := OwnerChangeFilters.from_or_to_owner_id filters in
  let query :=
    filter_by OwnerChange.resource_uuid
              (OwnerChangeFilters.resource_uuid filters)
      (filter_by OwnerChange.resource_type
                 (OwnerChangeFilters.resource_type filters) query) in
  let query :=
    match status with
    | Some (s :: l) =>
        filter (fun c => status_in (s :: l) (OwnerChange.status c)) query
    | _ => query
    end in
  let query :=
    match start, end_ with
    | Some start, Some end_ =>
        filter (fun c => (start >=? OwnerChange.start_time c)
                         && (end_ <=? OwnerChange.end_time c)) query
    | _, _ => query
    end in
  let query :=
    match from_or_to_owner_id with
    | Some id =>
        if String.eqb id "" then query
        else filter (fun c => String.eqb id (OwnerChange.from_owner_id c)
                              || String.eqb id (OwnerChange.to_owner_id c))
                    query
    | None => query
    end in
  query.

(** [resource_check_admin(resource_type, resource_uuid, start_time, end_time,
    default_admin_project_id, project_id)] *)
Definition resource_check_admin (resource_type resource_uuid : string)
    (start_time end_time : Z) (default_admin_project_id project_id : string)
    (st : store) : bool :=
  (* check if time period straddles an owner changes *)
  let ocs_conflicts :=
    filter (fun c => String.eqb (OwnerChange.resource_uuid c) resource_uuid
                     && String.eqb (OwnerChange.resource_type c) resource_type
                     && status_in [CREATED; ACTIVE] (OwnerChange.status c))
           (owner_changes st) in
  let ocs_conflicts :=
    filter (fun c => straddles start_time end_time
                               (OwnerChange.start_time c)
                               (OwnerChange.end_time c))
           ocs_conflicts in
  if (0 <? count ocs_conflicts)%nat then false
  else
  (* check if time period encompasses a single owner change *)
  let filters :=
    OwnerChangeFilters.mk (Some resource_type) (Some resource_uuid)
                          (Some start_time) (Some end_time)
                          (Some [CREATED; ACTIVE]) None in
  let ocs := owner_change_get_all filters st in
  if (1 <? count ocs)%nat then false       (* shouldn't happen, but... *)
  else if (count ocs =? 1)%nat then
    match ocs with
    | c :: _ => String.eqb project_id (OwnerChange.to_owner_id c)
    | [] => false                           (* not reached: count() == 1 *)
    end
  else
  (* no owner changes; use default check *)
  String.eqb project_id default_admin_project_id.

(** ** Ordered queries *)

(** [order_by(key)]: ascending, rows of equal key in storage order. *)
Fixpoint insert_by {A : Type} (key : A -> Z) (x : A) (l : list A) : list A :=
  match l with
  | [] => [x]
  | y :: l' =>
      if key x <=? key y then x :: y :: l' else y :: insert_by key x l'
  end.

Definition order_by {A : Type} (key : A -> Z) (l : list A) : list A :=
  fold_right (insert_by key) [] l.

(** [Query(Lease).join(Offer)]: the inner join on the foreign key
    [leases.offer_uuid = offers.uuid]; a lease is kept once for each offer
    row it refers to. *)
Definition join_offer (ls : list Lease.t) (os : list Offer.t) : list Lease.t :=
  flat_map (fun l => map (fun _ => l)
                         (filter (fun o => null_eqb (Lease.offer_uuid l)
                                                    (Offer.uuid o)) os))
           ls.

(** [offer_get_conflict_times(offer_ref)] *)
Definition offer_get_conflict_times (offer_ref : Offer.t) (st : store)
    : list (Z * Z) :=
  map (fun l => (Lease.start_time l, Lease.end_time l))
      (filter (fun l => null_eqb (Lease.offer_uuid l) (Offer.uuid offer_ref)
                        && (status_eqb (Lease.status l) CREATED
                            || status_eqb (Lease.status l) ACTIVE))
              (order_by Lease.start_time (join_offer (leases st) (offers st)))).

(** [offer_get_first_availability(offer_uuid, start)]: the row
    [(start_time,)] of the first match, or [None]. *)
Definition offer_get_first_availability (offer_uuid : string) (start : Z)
    (st : store) : option Z :=
  first
    (map Lease.start_time
       (filter (fun l => Lease.end_time l >=? start)
          (order_by Lease.start_time
             (filter (fun l => null_eqb (Lease.offer_uuid l) offer_uuid
                               && (status_eqb (Lease.status l) CREATED
                                   || status_eqb (Lease.status l) ACTIVE))
                     (leases st))))).

(** ** Writing sessions

    [with _session_for_write() as session:] - a computation that reads and
    changes the tables and may raise. *)
Definition session (A : Type) : Type := store -> result A * store.

Definition ret {A : Type} (a : A) : session A := fun st => (Return a, st).

Definition raise {A : Type} (e : exn) : session A := fun st => (Raise e, st).

Definition bind {A B : Type} (m : session A) (k : A -> session B)
    : session B :=
  fun st =>
    match m st with
    | (Return a, st') => k a st'
    | (Raise e, st') => (Raise e, st')
    end.

Notation "x <- m ;; k" := (bind m (fun x => k))
  (at level 61, m at next level, right associativity).
Notation "m ;;; k" := (bind m (fun _ => k))
  (at level 61, right associativity).

(** [model_query(model)]: the unfiltered query on a table. *)
Definition model_query {A : Type} (table : store -> list A)
    : session (list A) :=
  fun st => (Return (table st), st).

Definition lift {A : Type} (r : result A) : session A := fun st => (r, st).

(** [ref.attr] on the result of [one_or_none()]. *)
Definition getattr {A B : Type} (ref : option A) (attr : A -> B)
    : session B :=
  match ref with
  | Some r => ret (attr r)
  | None => raise AttributeError
  end.

(** [Query.delete()]: removes the rows the query selects. *)
Definition delete_offers (selects : Offer.t -> bool) : session unit :=
  fun st =>
    (Return tt,
     mkStore (filter (fun r => negb (selects r)) (offers st))
             (leases st) (owner_changes st)).

Definition delete_leases (selects : Lease.t -> bool) : session unit :=
  fun st =>
    (Return tt,
     mkStore (offers st)
             (filter (fun r => negb (selects r)) (leases st))
             (owner_changes st)).

Definition delete_owner_changes (selects : OwnerChange.t -> bool)
    : session unit :=
  fun st =>
    (Return tt,
     mkStore (offers st) (leases st)
             (filter (fun r => negb (selects r)) (owner_changes st))).

(** The row predicate of [query.filter_by(uuid=u)]. *)
Definition offer_uuid_is (u : string) (o : Offer.t) : bool :=
  String.eqb (Offer.uuid o) u.
Definition lease_uuid_is (u : string) (l : Lease.t) : bool :=
  String.eqb (Lease.uuid l) u.
Definition owner_change_uuid_is (u : string) (c : OwnerChange.t) : bool :=
  String.eqb (OwnerChange.uuid c) u.

(** The row predicate of an unfiltered query. *)
Definition every_row {A : Type} (_ : A) : bool := true.

(** [offer_destroy(offer_uuid)]: deletes
    [model_query(models.Offer).filter_by(uuid=offer_uuid)]. *)
Definition offer_destroy (offer_uuid : string) : session unit :=
  query <- model_query offers ;;
  offer_ref <- lift (one_or_none (filter (offer_uuid_is offer_uuid) query)) ;;
  if negb (truthy offer_ref) then raise (OfferNotFound offer_uuid)
  else delete_offers (offer_uuid_is offer_uuid).

(** [lease_destroy(lease_uuid)]: [filter_by] returns a new query and leaves
    [query] as it was, so [query.delete()] deletes the unfiltered
    [model_query(models.Lease)]. *)
Definition lease_destroy (lease_uuid : string) : session unit :=
  query <- model_query leases ;;
  lease_ref <- lift (one_or_none (filter (lease_uuid_is lease_uuid) query)) ;;
  if negb (truthy lease_ref) then raise (LeaseNotFound lease_uuid)
  else delete_leases every_row.

(** [owner_change_destroy(owner_change_uuid)]: as [lease_destroy]. *)
Definition owner_change_destroy (owner_change_uuid : string) : session unit :=
  query <- model_query owner_changes ;;
  owner_change_ref <-
    lift (one_or_none (filter (owner_change_uuid_is owner_change_uuid)
                              query)) ;;
  if negb (truthy owner_change_ref)
  then raise (OwnerChangeNotFound owner_change_uuid)
  else delete_owner_changes every_row.

(** ** Updates *)

(** A [values] dictionary: one optional entry per column; an absent key is
    [None].  A present entry holds a value of the column's type. *)
Module OfferValues.
Record t : Type := mk {
  uuid : option string;
  project_id : option string;
  lessee_id : option (option string);
  name : option string;
  resource_type : option string;
  resource_uuid : option string;
  start_time : option Z;
  end_time : option Z;
  status : option status;
  properties : option properties_t
}.
Definition empty : t :=
  mk None None None None None None None None None None.
(** [values.pop('uuid', None)], [values.pop('project_id', None)] *)
Definition pop_uuid (v : t) : t :=
  mk None (project_id v) (lessee_id v) (name v) (resource_type v)
     (resource_uuid v) (start_time v) (end_time v) (status v) (properties v).
Definition pop_project_id (v : t) : t :=
  mk (uuid v) None (lessee_id v) (name v) (resource_type v)
     (resource_uuid v) (start_time v) (end_time v) (status v) (properties v).
End OfferValues.

Module LeaseValues.
Record t : Type := mk {
  uuid : option string;
  project_id : option string;
  owner_id : option string;
  name : option string;
  offer_uuid : option (option string);
  resource_type : option string;
  resource_uuid : option string;
  start_time : option Z;
  end_time : option Z;
  status : option status;
  properties : option properties_t
}.
Definition empty : t :=
  mk None None None None None None None None None None None.
Definition pop_uuid (v : t) : t :=
  mk None (project_id v) (owner_id v) (name v) (offer_uuid v)
     (resource_type v) (resource_uuid v) (start_time v) (end_time v)
     (status v) (properties v).
Definition pop_project_id (v : t) : t :=
  mk (uuid v) None (owner_id v) (name v) (offer_uuid v)
     (resource_type v) (resource_uuid v) (start_time v) (end_time v)
     (status v) (properties v).
End LeaseValues.

Module OwnerChangeValues.
Record t : Type := mk {
  uuid : option string;
  from_owner_id : option string;
  to_owner_id : option string;
  resource_type : option string;
  resource_uuid : option string;
  start_time : option Z;
  end_time : option Z;
  status : option status
}.
Definition empty : t := mk None None None None None None None None.
(** The five [values.pop] calls of [owner_change_update]. *)
Definition pop_identity (v : t) : t :=
  mk None None None None None (start_time v) (end_time v) (status v).
End OwnerChangeValues.

(** [setattr] of one entry of [values]: the entry when present. *)
Definition set {A : Type} (entry : option A) (old : A) : A :=
  match entry with Some x => x | None => old end.

(** [row.update(values)]: [setattr(row, k, v)] for every entry of [values]. *)
Definition offer_row_update (r : Offer.t) (v : OfferValues.t) : Offer.t :=
  Offer.mk (set (OfferValues.uuid v) (Offer.uuid r))
           (set (OfferValues.project_id v) (Offer.project_id r))
           (set (OfferValues.lessee_id v) (Offer.lessee_id r))
           (set (OfferValues.name v) (Offer.name r))
           (set (OfferValues.resource_type v) (Offer.resource_type r))
           (set (OfferValues.resource_uuid v) (Offer.resource_uuid r))
           (set (OfferValues.start_time v) (Offer.start_time r))
           (set (OfferValues.end_time v) (Offer.end_time r))
           (set (OfferValues.status v) (Offer.status r))
           (set (OfferValues.properties v) (Offer.properties r)).

Definition lease_row_update (r : Lease.t) (v : LeaseValues.t) : Lease.t :=
  Lease.mk (set (LeaseValues.uuid v) (Lease.uuid r))
           (set (LeaseValues.project_id v) (Lease.project_id r))
           (set (LeaseValues.owner_id v) (Lease.owner_id r))
           (set (LeaseValues.name v) (Lease.name r))
           (set (LeaseValues.offer_uuid v) (Lease.offer_uuid r))
           (set (LeaseValues.resource_type v) (Lease.resource_type r))
           (set (LeaseValues.resource_uuid v) (Lease.resource_uuid r))
           (set (LeaseValues.start_time v) (Lease.start_time r))
           (set (LeaseValues.end_time v) (Lease.end_time r))
           (set (LeaseValues.status v) (Lease.status r))
           (set (LeaseValues.properties v) (Lease.properties r)).

Definition owner_change_row_update (r : OwnerChange.t)
    (v : OwnerChangeValues.t) : OwnerChange.t :=
  OwnerChange.mk
    (set (OwnerChangeValues.uuid v) (OwnerChange.uuid r))
    (set (OwnerChangeValues.from_owner_id v) (OwnerChange.from_owner_id r))
    (set (OwnerChangeValues.to_owner_id v) (OwnerChange.to_owner_id r))
    (set (OwnerChangeValues.resource_type v) (OwnerChange.resource_type r))
    (set (OwnerChangeValues.resource_uuid v) (OwnerChange.resource_uuid r))
    (set (OwnerChangeValues.start_time v) (OwnerChange.start_time r))
    (set (OwnerChangeValues.end_time v) (OwnerChange.end_time r))
    (set (OwnerChangeValues.status v) (OwnerChange.status r)).

(** [session.flush()] after [ref.update(values)]: the row the query found
    is written back in its place. *)
Definition flush_row {A : Type} (found : A -> bool) (row : A) (l : list A)
    : list A :=
  map (fun r => if found r then row else r) l.

Definition flush_offer (u : string) (row : Offer.t) : session unit :=
  fun st =>
    (Return tt,
     mkStore (flush_row (offer_uuid_is u) row (offers st))
             (leases st) (owner_changes st)).

Definition flush_lease (u : string) (row : Lease.t) : session unit :=
  fun st =>
    (Return tt,
     mkStore (offers st)
             (flush_row (lease_uuid_is u) row (leases st))
             (owner_changes st)).

Definition flush_owner_change (u : string) (row : OwnerChange.t)
    : session unit :=
  fun st =>
    (Return tt,
     mkStore (offers st) (leases st)
             (flush_row (owner_change_uuid_is u) row (owner_changes st))).

(** [start = values.get(k, None); if start is None: start = ref.attr] *)
Definition get_or_attr {A : Type} (entry : option Z) (ref : option A)
    (attr : A -> Z) : session Z :=
  match entry with
  | Some t => ret t
  | None => getattr ref attr
  end.

(** [offer_update(offer_uuid, values)] *)
Definition offer_update (offer_uuid : string) (values : OfferValues.t)
    : session Offer.t :=
  query <- model_query offers ;;
  offer_ref <- lift (one_or_none (filter (offer_uuid_is offer_uuid) query)) ;;
  let values := OfferValues.pop_uuid values in
  let values := OfferValues.pop_project_id values in
  start <- get_or_attr (OfferValues.start_time values) offer_ref
                       Offer.start_time ;;
  end_ <- get_or_attr (OfferValues.end_time values) offer_ref
                      Offer.end_time ;;
  if start >=? end_ then raise (InvalidTimeRange "an offer" start end_)
  else
    row <- getattr offer_ref (fun r => offer_row_update r values) ;;
    flush_offer offer_uuid row ;;;
    ret row.

(** [lease_update(lease_uuid, values)] *)
Definition lease_update (lease_uuid : string) (values : LeaseValues.t)
    : session Lease.t :=
  query <- model_query leases ;;
  lease_ref <- lift (one_or_none (filter (lease_uuid_is lease_uuid) query)) ;;
  let values := LeaseValues.pop_uuid values in
  let values := LeaseValues.pop_project_id values in
  start <- get_or_attr (LeaseValues.start_time values) lease_ref
                       Lease.start_time ;;
  end_ <- get_or_attr (LeaseValues.end_time values) lease_ref
                      Lease.end_time ;;
  if start >=? end_ then raise (InvalidTimeRange "a lease" start end_)
  else
    row <- getattr lease_ref (fun r => lease_row_update r values) ;;
    flush_lease lease_uuid row ;;;
    ret row.

(** [owner_change_update(owner_change_uuid, values)] *)
Definition owner_change_update (owner_change_uuid : string)
    (values : OwnerChangeValues.t) : session OwnerChange.t :=
  query <- model_query owner_changes ;;
  owner_change_ref <-
    lift (one_or_none (filter (owner_change_uuid_is owner_change_uuid)
                              query)) ;;
  let values := OwnerChangeValues.pop_identity values in
  start <- get_or_attr (OwnerChangeValues.start_time values)
                       owner_change_ref OwnerChange.start_time ;;
  end_ <- get_or_attr (OwnerChangeValues.end_time values)
                      owner_change_ref OwnerChange.end_time ;;
  if start >=? end_ then raise (InvalidTimeRange "an owner_change" start end_)
  else
    row <- getattr owner_change_ref
                   (fun r => owner_change_row_update r values) ;;
    flush_owner_change owner_change_uuid row ;;;
    ret row.

(** ** Claiming an offer *)

(** Modelled from the spec: [Offer.get_first_availability] of
    [esi_leap/objects/offer.py] is not among the sources; it is the object
    layer's call of the database query of the same name with the offer's
    uuid (the start of the offer's next occupied interval). *)
Definition Offer_get_first_availability (offer : Offer.t) (start : Z)
    (st : store) : option Z :=
  offer_get_first_availability (Offer.uuid offer) start st.

(** [OffersController.claim], from [new_lease.to_dict()] to the dictionary
    handed as keyword arguments to [lease_obj.Lease]; [now] is
    [datetime.datetime.now()], [request_project_id] and [new_uuid] the
    request's project and the generated uuid. *)
Definition claim_lease_dict (now : Z) (request_project_id new_uuid : string)
    (offer : Offer.t) (new_lease : LeaseValues.t) (st : store)
    : LeaseValues.t :=
  let start_time :=
    match LeaseValues.start_time new_lease with
    | Some t => t
    | None => now
    end in
  let end_time :=
    match LeaseValues.end_time new_lease with
    | Some t => t
    | None =>
        match Offer_get_first_availability offer start_time st with
        | None => Offer.end_time offer
        | Some q_start_time => q_start_time
        end
    end in
  LeaseValues.mk (Some new_uuid) (Some request_project_id)
                 (Some (Offer.project_id offer))
                 (LeaseValues.name new_lease)
                 (Some (Some (Offer.uuid offer)))
                 (Some (Offer.resource_type offer))
                 (Some (Offer.resource_uuid offer))
                 (Some start_time) (Some end_time)
                 (LeaseValues.status new_lease)
                 (LeaseValues.properties new_lease).

(** ** Availabilities *)

(** Modelled from the spec: [Offer.get_availabilities] of
    [esi_leap/objects/offer.py] is not among the sources.  Section 4.2: scan
    the sorted occupied list maintaining a cursor initialized to [O.start];
    for each occupied interval [[s,e)], if [cursor < s] emit gap
    [[cursor, s)]; advance [cursor = max(cursor, e)]; after the scan, if
    [cursor < O.end] emit the final gap [[cursor, O.end)].  The state of the
    scan is the cursor and the gaps emitted so far. *)
Definition scan_step (state : Z * list (Z * Z)) (occupied : Z * Z)
    : Z * list (Z * Z) :=
  let '(cursor, gaps) := state in
  let '(s, e) := occupied in
  (Z.max cursor e, if cursor <? s then gaps ++ [(cursor, s)] else gaps).

Definition availabilities (o_start o_end : Z) (occupied : list (Z * Z))
    : list (Z * Z) :=
  let '(cursor, gaps) := fold_left scan_step occupied (o_start, []) in
  if cursor <? o_end then gaps ++ [(cursor, o_end)] else gaps.

(** The gaps of the cursor scan, by recursion on the occupied list: what
    is emitted at the head, then the gaps of the rest from the advanced
    cursor. *)
Fixpoint scan_gaps (cursor : Z) (occupied : list (Z * Z)) (o_end : Z)
    : list (Z * Z) :=
  match occupied with
  | [] => if cursor <? o_end then [(cursor, o_end)] else []
  | (s, e) :: rest =>
      (if cursor <? s then [(cursor, s)] else [])
      ++ scan_gaps (Z.max cursor e) rest o_end
  end.

(** Ascending by start. *)
Definition sorted_by_start (occupied : list (Z * Z)) : Prop :=
  Sorted (fun a b => fst a <= fst b) occupied.

(** The time [t] lies in the half-open interval [i]. *)
Definition within (t : Z) (i : Z * Z) : Prop := fst i <= t < snd i.

(** Modelled from the spec: [Offer.get_availabilities], the calculator fed
    with the conflict times the database query returns for the offer. *)
Definition get_availabilities (offer : Offer.t) (st : store)
    : list (Z * Z) :=
  availabilities (Offer.start_time offer) (Offer.end_time offer)
                 (offer_get_conflict_times offer st).

(** ** Specification predicates *)

(** A stored AVAILABLE offer on the resource whose interval conflicts with
    the candidate window. *)
Definition offer_blocks (r_type r_uuid : string) (start end_ : Z)
    (st : store) : Prop :=
  exists o, In o (offers st)
    /\ Offer.resource_uuid o = r_uuid /\ Offer.resource_type o = r_type
    /\ Offer.status o = AVAILABLE
    /\ overlap3 start end_ (Offer.start_time o) (Offer.end_time o).

(** A stored CREATED or ACTIVE lease on the resource whose interval
    conflicts with the candidate window. *)
Definition lease_blocks (r_type r_uuid : string) (start end_ : Z)
    (st : store) : Prop :=
  exists l, In l (leases st)
    /\ Lease.resource_uuid l = r_uuid /\ Lease.resource_type l = r_type
    /\ (Lease.status l = CREATED \/ Lease.status l = ACTIVE)
    /\ overlap3 start end_ (Lease.start_time l) (Lease.end_time l).

(** A stored CREATED or ACTIVE owner change on the resource whose interval
    conflicts with the candidate window. *)
Definition owner_change_blocks (r_type r_uuid : string) (start end_ : Z)
    (st : store) : Prop :=
  exists c, In c (owner_changes st)
    /\ OwnerChange.resource_uuid c = r_uuid
    /\ OwnerChange.resource_type c = r_type
    /\ (OwnerChange.status c = CREATED \/ OwnerChange.status c = ACTIVE)
    /\ overlap3 start end_ (OwnerChange.start_time c)
                (OwnerChange.end_time c).

(** A CREATED or ACTIVE lease of the offer whose interval conflicts with the
    candidate window. *)
Definition offer_lease_blocks (offer_uuid : string) (start end_ : Z)
    (st : store) : Prop :=
  exists l, In l (leases st)
    /\ Lease.offer_uuid l = Some offer_uuid
    /\ (Lease.status l = CREATED \/ Lease.status l = ACTIVE)
    /\ overlap3 start end_ (Lease.start_time l) (Lease.end_time l).

(** The window and the interval [[s,e)] are both non-empty and share no
    point: they are apart or touch at a boundary. *)
Definition apart_or_touching (start end_ s e : Z) : Prop :=
  start < end_ /\ s < e /\ (end_ <= s \/ e <= start).

(** ** Fixtures of [tests/db/sqlalchemy/test_api.py], in days from [now];
    the leases are those of the offer [test_offer_1] *)

Definition oc1_data : OwnerChange.t :=
  OwnerChange.mk "11111" "owner1" "owner2" "dummy_node" "1111" 10 20 CREATED.

Definition test_lease_1 : Lease.t :=
  Lease.mk "11111" "1e5533" "0wn3r" "l1" (Some "11111") "dummy_node" "1111"
           10 20 CREATED [].

Definition test_lease_2 : Lease.t :=
  Lease.mk "22222" "1e5533" "0wn3r" "l1" (Some "11111") "dummy_node" "1111"
           20 30 CREATED [].

Definition test_lease_3 : Lease.t :=
  Lease.mk "33333" "1e5533_2" "0wn3r_2" "l1" (Some "11111") "dummy_node"
           "1111"
           50 60 ACTIVE [].

Definition test_offer_1 : Offer.t :=
  Offer.mk "11111" "0wn3r" None "o1" "dummy_node" "1111" 0 100 AVAILABLE
           [("foo", "bar")].

Definition empty_store : store := mkStore [] [] [].

Definition store_lease_50_60 : store := mkStore [] [test_lease_3] [].

(** ** Specification predicates of the arbiter *)

(** The straddle test as a proposition. *)
Definition straddle3 (start_time end_time s e : Z) : Prop :=
  (start_time >= s /\ start_time < e /\ end_time > e)
  \/ (start_time < s /\ end_time > s /\ end_time < e)
  \/ (start_time <= s /\ end_time >= e).

(** A CREATED or ACTIVE owner change on the resource. *)
Definition live_on (r_type r_uuid : string) (c : OwnerChange.t) : bool :=
  String.eqb (OwnerChange.resource_uuid c) r_uuid
  && String.eqb (OwnerChange.resource_type c) r_type
  && status_in [CREATED; ACTIVE] (OwnerChange.status c).

(** The live owner changes on the resource that straddle the window. *)
Definition straddling_changes (r_type r_uuid : string) (w_start w_end : Z)
    (st : store) : list OwnerChange.t :=
  filter (fun c => live_on r_type r_uuid c
                   && straddles w_start w_end (OwnerChange.start_time c)
                                (OwnerChange.end_time c))
         (owner_changes st).

(** The live owner changes on the resource whose interval lies within the
    window: [w_start <= OC.start /\ w_end >= OC.end]. *)
Definition contained_changes (r_type r_uuid : string) (w_start w_end : Z)
    (st : store) : list OwnerChange.t :=
  filter (fun c => live_on r_type r_uuid c
                   && (w_start <=? OwnerChange.start_time c)
                   && (w_end >=? OwnerChange.end_time c))
         (owner_changes st).

(** The live owner changes on the resource whose interval encloses the
    window: [OC.start <= w_start /\ w_end <= OC.end]. *)
Definition enclosing_changes (r_type r_uuid : string) (w_start w_end : Z)
    (st : store) : list OwnerChange.t :=
  filter (fun c => live_on r_type r_uuid c
                   && (OwnerChange.start_time c <=? w_start)
                   && (w_end <=? OwnerChange.end_time c))
         (owner_changes st).

Definition store_oc1 : store := mkStore [] [] [oc1_data].

Definition store_offer_1 : store :=
  mkStore [test_offer_1] [test_lease_3; test_lease_1; test_lease_2] [].

(** ** Specification predicates of the claim *)

(** A CREATED or ACTIVE lease of the offer that ends at or after [start]. *)
Definition occupies_from (offer_uuid : string) (start : Z) (st : store)
    (l : Lease.t) : Prop :=
  In l (leases st)
  /\ Lease.offer_uuid l = Some offer_uuid
  /\ (Lease.status l = CREATED \/ Lease.status l = ACTIVE)
  /\ Lease.end_time l >= start.

(** Such a lease with the smallest [start_time] among them. *)
Definition first_occupying (offer_uuid : string) (start : Z) (st : store)
    (l : Lease.t) : Prop :=
  occupies_from offer_uuid start st l
  /\ forall l', occupies_from offer_uuid start st l' ->
                Lease.start_time l <= Lease.start_time l'.

(** The claim's start time: the supplied one, or [now]. *)
Definition claim_start (now : Z) (new_lease : LeaseValues.t) : Z :=
  match LeaseValues.start_time new_lease with
  | Some t => t
  | None => now
  end.


Definition oc2_data : OwnerChange.t :=
  OwnerChange.mk "22222" "owner1" "owner3" "dummy_node" "1111" 30 40 ACTIVE.

Definition store_two_leases : store :=
  mkStore [test_offer_1] [test_lease_1; test_lease_2] [oc1_data].

Definition store_two_owner_changes : store :=
  mkStore [test_offer_1] [test_lease_1] [oc1_data; oc2_data].

(** ** Specification predicates of the updates *)

(** An update with resolved bounds [start] and [end_] validates them: it
    raises [InvalidTimeRange] exactly when [start >= end_], then leaves the
    store as it was, and returns a row otherwise. *)
Definition validates_time_range {R : Type} (resource : string)
    (start end_ : Z) (st : store) (out : result R * store) : Prop :=
  (fst out = Raise (InvalidTimeRange resource start end_) <-> start >= end_)
  /\ (start >= end_ -> snd out = st)
  /\ (start < end_ -> exists row, fst out = Return row).

(** An operation on an absent row fails without [NotFound]: it raises
    another exception, [AttributeError] when a time bound is omitted, and
    leaves the store as it was. *)
Definition fails_without_not_found {R : Type} (bound_omitted : Prop)
    (st : store) (out : result R * store) : Prop :=
  exists e, out = (Raise e, st)
            /\ is_not_found e = false
            /\ (bound_omitted -> e = AttributeError).


(** The exception an update raises when the lookup found no row. *)
Definition absent_row_exn (resource : string) (start end_ : option Z) : exn :=
  match start, end_ with
  | Some s, Some e =>
      if s >=? e then InvalidTimeRange resource s e else AttributeError
  | _, _ => AttributeError
  end.

(** ** Lookups and creation *)

(** [offer_get_by_uuid(offer_uuid)] *)
Definition offer_get_by_uuid (offer_uuid : string) (st : store)
    : result (option Offer.t) :=
  one_or_none (filter (offer_uuid_is offer_uuid) (offers st)).

(** [offer_get_by_name(name)] *)
Definition offer_get_by_name (name : string) (st : store) : list Offer.t :=
  filter (fun o => String.eqb (Offer.name o) name) (offers st).

(** [lease_get_by_uuid(lease_uuid)] *)
Definition lease_get_by_uuid (lease_uuid : string) (st : store)
    : result (option Lease.t) :=
  one_or_none (filter (lease_uuid_is lease_uuid) (leases st)).

(** [lease_get_by_name(name)] *)
Definition lease_get_by_name (name : string) (st : store) : list Lease.t :=
  filter (fun l => String.eqb (Lease.name l) name) (leases st).

(** [owner_change_get_by_uuid(owner_change_uuid)] *)
Definition owner_change_get_by_uuid (owner_change_uuid : string) (st : store)
    : result (option OwnerChange.t) :=
  one_or_none (filter (owner_change_uuid_is owner_change_uuid)
                      (owner_changes st)).

(** [offer_create(values)], for a [values] dictionary that gives every
    column: [session.add] puts the new row after the stored ones. *)
Definition offer_create (values : Offer.t) : session Offer.t :=
  fun st =>
    (Return values,
     mkStore (offers st ++ [values]) (leases st) (owner_changes st)).

(** [lease_create(values)] *)
Definition lease_create (values : Lease.t) : session Lease.t :=
  fun st =>
    (Return values,
     mkStore (offers st) (leases st ++ [values]) (owner_changes st)).

(** [owner_change_create(values)] *)
Definition owner_change_create (values : OwnerChange.t)
    : session OwnerChange.t :=
  fun st =>
    (Return values,
     mkStore (offers st) (leases st) (owner_changes st ++ [values])).

(** ** Invariants of the tables *)

(** Two half-open intervals share a point. *)
Definition intersect (a b : Z * Z) : Prop := fst a < snd b /\ fst b < snd a.

(** The CREATED and ACTIVE owner changes of one resource are pairwise
    disjoint. *)
Definition owner_changes_disjoint (l : list OwnerChange.t) : Prop :=
  ForallOrdPairs
    (fun a b =>
       status_in [CREATED; ACTIVE] (OwnerChange.status a) = true ->
       status_in [CREATED; ACTIVE] (OwnerChange.status b) = true ->
       OwnerChange.resource_uuid a = OwnerChange.resource_uuid b ->
       OwnerChange.resource_type a = OwnerChange.resource_type b ->
       ~ intersect (OwnerChange.start_time a, OwnerChange.end_time a)
                   (OwnerChange.start_time b, OwnerChange.end_time b))
    l.

(** The AVAILABLE offers of one resource are pairwise disjoint. *)
Definition offers_disjoint (l : list Offer.t) : Prop :=
  ForallOrdPairs
    (fun a b =>
       Offer.status a = AVAILABLE -> Offer.status b = AVAILABLE ->
       Offer.resource_uuid a = Offer.resource_uuid b ->
       Offer.resource_type a = Offer.resource_type b ->
       ~ intersect (Offer.start_time a, Offer.end_time a)
                   (Offer.start_time b, Offer.end_time b))
    l.

(** Every stored owner change, respectively offer, has
    [start_time < end_time]. *)
Definition owner_changes_well_formed (l : list OwnerChange.t) : Prop :=
  Forall (fun c => OwnerChange.start_time c < OwnerChange.end_time c) l.

Definition offers_well_formed (l : list Offer.t) : Prop :=
  Forall (fun o => Offer.start_time o < Offer.end_time o) l.

(** No two stored offers share a uuid. *)
Definition offer_uuids_unique (st : store) : Prop :=
  NoDup (map Offer.uuid (offers st)).


(** The leases of an offer that block its windows. *)
Definition blocks_offer (offer_uuid : string) (l : Lease.t) : bool :=
  null_eqb (Lease.offer_uuid l) offer_uuid
  && (status_eqb (Lease.status l) CREATED
      || status_eqb (Lease.status l) ACTIVE).

(** ** Listing offers and leases *)

(** The time filter of [offer_get_all] and [lease_get_all] on a row with
    interval [[s,e)]: for [time_filter_type == 'within']
<<
    ((start <= M.start_time) & (end >= M.start_time)) |
    ((start <= M.end_time) & (end >= M.end_time))
>>
    and otherwise [(start >= M.start_time) & (end <= M.end_time)]. *)
Definition time_filter (time_filter_type : option string) (start end_ : Z)
    (s e : Z) : bool :=
  let within :=
    match time_filter_type with
    | Some t => String.eqb t "within"
    | None => false
    end in
  if within
  then ((start <=? s) && (end_ >=? s)) || ((start <=? e) && (end_ >=? e))
  else (start >=? s) && (end_ <=? e).

(** The [filters] dictionary of [offer_get_all]: the six keys the function
    pops, and the four column keys [OffersController.get_all] leaves as
    keyword arguments of [filter_by].  An absent key is [None]. *)
Module OfferFilters.
Record t : Type := mk {
  project_id : option string;
  resource_type : option string;
  resource_uuid : option string;
  status : option status;
  lessee_id : option string;
  start_time : option Z;
  end_time : option Z;
  time_filter_type : option string;
  available_start_time : option Z;
  available_end_time : option Z
}.
(** The filters without the two availability keys. *)
Definition without_availability (f : t) : t :=
  mk (project_id f) (resource_type f) (resource_uuid f) (status f)
     (lessee_id f) (start_time f) (end_time f) (time_filter_type f)
     None None.
End OfferFilters.

(** [filter_by(status=value)] *)
Definition filter_by_status (v : option status) (q : list Offer.t)
    : list Offer.t :=
  match v with
  | Some x => filter (fun r => status_eqb (Offer.status r) x) q
  | None => q
  end.

(** The lessee filter of [offer_get_all]:
    [or_(Offer.project_id == lessee_id, Offer.lessee_id.__eq__(None),
    Offer.lessee_id.in_(lessee_id_list))]. *)
Definition lessee_may_see (lessee_id : string) (lessee_id_list : list string)
    (o : Offer.t) : bool :=
  String.eqb (Offer.project_id o) lessee_id
  || match Offer.lessee_id o with None => true | Some _ => false end
  || match Offer.lessee_id o with
     | Some x => existsb (String.eqb x) lessee_id_list
     | None => false
     end.

(** One turn of the loop [for o in query:] of [offer_get_all]: when
    [offer_verify_availability] raises (it raises
    [OfferNoTimeAvailabilities] only), the query is narrowed by
    [Offer.uuid != o.uuid]. *)
Definition drop_unavailable (a_start a_end : Z) (st : store)
    (query : list Offer.t) (o : Offer.t) : list Offer.t :=
  match offer_verify_availability o a_start a_end st with
  | Return _ => query
  | Raise _ =>
      filter (fun r => negb (String.eqb (Offer.uuid r) (Offer.uuid o))) query
  end.

(** [offer_get_all(filters)]; [get_parent_project_id_tree] is
    [keystone.get_parent_project_id_tree].  The loop runs over the rows of
    the query as it is when the loop starts. *)
Definition offer_get_all (get_parent_project_id_tree : string -> list string)
    (filters : OfferFilters.t) (st : store) : list Offer.t :=
  let query := offers st in
  let lessee_id := OfferFilters.lessee_id filters in
  let start := OfferFilters.start_time filters in
  let end_ := OfferFilters.end_time filters in
  let time_filter_type := OfferFilters.time_filter_type filters in
  let a_start := OfferFilters.available_start_time filters in
  let a_end := OfferFilters.available_end_time filters in
  let query :=
    filter_by_status (OfferFilters.status filters)
      (filter_by Offer.resource_uuid (OfferFilters.resource_uuid filters)
         (filter_by Offer.resource_type (OfferFilters.resource_type filters)
            (filter_by Offer.project_id (OfferFilters.project_id filters)
                       query))) in
  let query :=
    match lessee_id with
    | Some id =>
        if String.eqb id "" then query
        else
          let lessee_id_list := get_parent_project_id_tree id in
          filter (lessee_may_see id lessee_id_list) query
    | None => query
    end in
  let query :=
    match start, end_ with
    | Some start, Some end_ =>
        filter (fun o => time_filter time_filter_type start end_
                                     (Offer.start_time o) (Offer.end_time o))
               query
    | _, _ => query
    end in
  let query :=
    match a_start, a_end with
    | Some a_start, Some a_end =>
        fold_left (drop_unavailable a_start a_end st) query query
    | _, _ => query
    end in
  query.

(** The [filters] dictionary of [lease_get_all]: the five keys the function
    pops; [columns] holds the tests [column == value] of the keys left as
    keyword arguments of [filter_by]. *)
Module LeaseFilters.
Record t : Type := mk {
  columns : list (Lease.t -> bool);
  start_time : option Z;
  end_time : option Z;
  time_filter_type : option string;
  status : option (list status);
  project_or_owner_id : option string
}.
(** The same filters with another time filter. *)
Definition with_times (f : t) (start end_ : option Z)
    (time_filter_type : option string) : t :=
  mk (columns f) start end_ time_filter_type (status f)
     (project_or_owner_id f).
End LeaseFilters.

(** [lease_get_all(filters)] *)
Definition lease_get_all (filters : LeaseFilters.t) (st : store)
    : list Lease.t :=
  let query := leases st in
  let start := LeaseFilters.start_time filters in
  let end_ := LeaseFilters.end_time filters in
  let time_filter_type := LeaseFilters.time_filter_type filters in
  let status := LeaseFilters.status filters in
  let project_or_owner_id := LeaseFilters.project_or_owner_id filters in
  let query :=
    fold_left (fun q test => filter test q) (LeaseFilters.columns filters)
              query in
  let query :=
    match status with
    | Some (s :: l) =>
        filter (fun r => status_in (s :: l) (Lease.status r)) query
    | _ => query
    end in
  let query :=
    match start, end_ with
    | Some start, Some end_ =>
        filter (fun r => time_filter time_filter_type start end_
                                     (Lease.start_time r) (Lease.end_time r))
               query
    | _, _ => query
    end in
  let query :=
    match project_or_owner_id with
    | Some id =>
        if String.eqb id "" then query
        else filter (fun r => String.eqb id (Lease.project_id r)
                              || String.eqb id (Lease.owner_id r))
                    query
    | None => query
    end in
  query.


(** * Properties *)

(** ** Booleans of the embedding as propositions *)

Lemma time_conflict_iff (start end_ s e : Z) :
  time_conflict start end_ s e = true <-> overlap3 start end_ s e.
Proof.
  unfold time_conflict, overlap3.
  rewrite !orb_true_iff, !andb_true_iff.
  rewrite !Z.geb_le, !Z.gtb_lt, !Z.ltb_lt, !Z.leb_le. lia.
Qed.

Lemma status_eqb_eq (a b : status) : status_eqb a b = true <-> a = b.
Proof. destruct a, b; simpl; split; intro H; congruence. Qed.

Lemma status_in_created_active (s : status) :
  status_in [CREATED; ACTIVE] s = true <-> s = CREATED \/ s = ACTIVE.
Proof.
  unfold status_in; simpl.
  rewrite !orb_true_iff, !status_eqb_eq. intuition congruence.
Qed.

Lemma null_eqb_eq (c : option string) (v : string) :
  null_eqb c v = true <-> c = Some v.
Proof.
  destruct c as [x|]; simpl.
  - rewrite String.eqb_eq. split; congruence.
  - split; congruence.
Qed.

Lemma truthy_first_filter {A : Type} (p : A -> bool) (l : list A) :
  truthy (first (filter p l)) = true <-> exists x, In x l /\ p x = true.
Proof.
  unfold first. split.
  - destruct (filter p l) as [|x q] eqn:E; simpl; [discriminate|].
    intros _. exists x. apply filter_In. rewrite E. now left.
  - intros [x Hx]. apply filter_In in Hx.
    destruct (filter p l); [contradiction | reflexivity].
Qed.

Lemma truthy_first_filter_false {A : Type} (p : A -> bool) (l : list A) :
  truthy (first (filter p l)) = false
  <-> forall x, In x l -> p x = false.
Proof.
  rewrite <- not_true_iff_false, truthy_first_filter. split.
  - intros H x Hx. destruct (p x) eqn:E; [|reflexivity].
    exfalso. apply H. now exists x.
  - intros H [x [Hx Hp]]. rewrite (H x Hx) in Hp. discriminate.
Qed.

(** The three conflict searches of [resource_verify_availability]. *)
Lemma offer_search_iff (r_type r_uuid : string) (start end_ : Z) (st : store) :
  truthy (first (filter (fun o => time_conflict start end_
                                    (Offer.start_time o) (Offer.end_time o))
     (filter (fun o => String.eqb (Offer.resource_uuid o) r_uuid
                       && String.eqb (Offer.resource_type o) r_type
                       && status_eqb (Offer.status o) AVAILABLE)
             (offers st)))) = true
  <-> offer_blocks r_type r_uuid start end_ st.
Proof.
  rewrite truthy_first_filter. unfold offer_blocks.
  split; intros [o H]; exists o; revert H;
    rewrite filter_In, !andb_true_iff, !String.eqb_eq, status_eqb_eq,
      time_conflict_iff; tauto.
Qed.

Lemma lease_search_iff (r_type r_uuid : string) (start end_ : Z) (st : store) :
  truthy (first (filter (fun l => time_conflict start end_
                                    (Lease.start_time l) (Lease.end_time l))
     (filter (fun l => String.eqb (Lease.resource_uuid l) r_uuid
                       && String.eqb (Lease.resource_type l) r_type
                       && status_in [CREATED; ACTIVE] (Lease.status l))
             (leases st)))) = true
  <-> lease_blocks r_type r_uuid start end_ st.
Proof.
  rewrite truthy_first_filter. unfold lease_blocks.
  split; intros [l H]; exists l; revert H;
    rewrite filter_In, !andb_true_iff, !String.eqb_eq,
      status_in_created_active, time_conflict_iff; tauto.
Qed.

Lemma owner_change_search_iff (r_type r_uuid : string) (start end_ : Z)
    (st : store) :
  truthy (first (filter (fun c => time_conflict start end_
                          (OwnerChange.start_time c) (OwnerChange.end_time c))
     (filter (fun c => String.eqb (OwnerChange.resource_uuid c) r_uuid
                       && String.eqb (OwnerChange.resource_type c) r_type
                       && status_in [CREATED; ACTIVE] (OwnerChange.status c))
             (owner_changes st)))) = true
  <-> owner_change_blocks r_type r_uuid start end_ st.
Proof.
  rewrite truthy_first_filter. unfold owner_change_blocks.
  split; intros [c H]; exists c; revert H;
    rewrite filter_In, !andb_true_iff, !String.eqb_eq,
      status_in_created_active, time_conflict_iff; tauto.
Qed.

(** What [resource_verify_availability] answers, in terms of the three
    searches. *)
Lemma resource_verify_availability_cases
    (r_type r_uuid : string) (start end_ : Z) (is_oc : bool) (st : store) :
  (resource_verify_availability r_type r_uuid start end_ is_oc st
     = Raise (ResourceTimeConflict r_uuid r_type)
   /\ (offer_blocks r_type r_uuid start end_ st
       \/ lease_blocks r_type r_uuid start end_ st
       \/ (is_oc = true /\ owner_change_blocks r_type r_uuid start end_ st)))
  \/ (resource_verify_availability r_type r_uuid start end_ is_oc st
        = Return tt
      /\ ~ offer_blocks r_type r_uuid start end_ st
      /\ ~ lease_blocks r_type r_uuid start end_ st
      /\ (is_oc = true
          -> ~ owner_change_blocks r_type r_uuid start end_ st)).
Proof.
  pose proof (offer_search_iff r_type r_uuid start end_ st) as Ho.
  pose proof (lease_search_iff r_type r_uuid start end_ st) as Hl.
  pose proof (owner_change_search_iff r_type r_uuid start end_ st) as Hc.
  unfold resource_verify_availability.
  destruct (truthy (first (filter _ (filter _ (offers st))))).
  { left. split; [reflexivity | left; now apply Ho]. }
  destruct (truthy (first (filter _ (filter _ (leases st))))).
  { left. split; [reflexivity | right; left; now apply Hl]. }
  destruct is_oc; simpl.
  - destruct (truthy (first (filter _ (filter _ (owner_changes st))))).
    + left. split; [reflexivity | right; right; split; tauto].
    + right. repeat split; try reflexivity.
      * intro H. apply Ho in H. discriminate.
      * intro H. apply Hl in H. discriminate.
      * intros _ H. apply Hc in H. discriminate.
  - right. repeat split; try reflexivity.
    + intro H. apply Ho in H. discriminate.
    + intro H. apply Hl in H. discriminate.
    + discriminate.
Qed.

Lemma apart_or_touching_no_overlap (start end_ s e : Z) :
  apart_or_touching start end_ s e -> ~ overlap3 start end_ s e.
Proof. unfold apart_or_touching, overlap3. lia. Qed.

(** ** The conflict checker *)

(** C1. [resource_verify_availability] called with [is_owner_change=False]
    raises [ResourceTimeConflict] if and only if some stored AVAILABLE offer
    or some stored CREATED or ACTIVE lease on the resource has an interval
    [[s,e)] with [(start >= s /\ start < e) \/ (end > s /\ end <= e) \/
    (start <= s /\ end >= e)], and returns otherwise; when every such
    interval is apart from the candidate window or only touches it at a
    boundary ([end = s] or [start = e]) the call does not raise.  On the
    stored lease [[50,60)] the candidate [[45,55)] conflicts and the
    candidate [[30,50)] does not. *)
Theorem resource_verify_availability_raises_iff :
  forall (r_type r_uuid : string) (start end_ : Z) (st : store),
    (resource_verify_availability r_type r_uuid start end_ false st
       = Raise (ResourceTimeConflict r_uuid r_type)
     <-> offer_blocks r_type r_uuid start end_ st
         \/ lease_blocks r_type r_uuid start end_ st)
    /\ (resource_verify_availability r_type r_uuid start end_ false st
          = Return tt
        <-> ~ (offer_blocks r_type r_uuid start end_ st
               \/ lease_blocks r_type r_uuid start end_ st))
    /\ ((forall o, In o (offers st) ->
           Offer.resource_uuid o = r_uuid -> Offer.resource_type o = r_type ->
           Offer.status o = AVAILABLE ->
           apart_or_touching start end_ (Offer.start_time o)
                             (Offer.end_time o)) ->
        (forall l, In l (leases st) ->
           Lease.resource_uuid l = r_uuid -> Lease.resource_type l = r_type ->
           Lease.status l = CREATED \/ Lease.status l = ACTIVE ->
           apart_or_touching start end_ (Lease.start_time l)
                             (Lease.end_time l)) ->
        resource_verify_availability r_type r_uuid start end_ false st
          = Return tt)
    /\ resource_verify_availability "dummy_node" "1111" 45 55 false
         store_lease_50_60
       = Raise (ResourceTimeConflict "1111" "dummy_node")
    /\ resource_verify_availability "dummy_node" "1111" 30 50 false
         store_lease_50_60
       = Return tt.
Proof.
  intros r_type r_uuid start end_ st.
  assert (Hiff :
    resource_verify_availability r_type r_uuid start end_ false st
      = Raise (ResourceTimeConflict r_uuid r_type)
    <-> offer_blocks r_type r_uuid start end_ st
        \/ lease_blocks r_type r_uuid start end_ st).
  { destruct (resource_verify_availability_cases
                r_type r_uuid start end_ false st)
      as [[E H] | [E [Ho [Hl _]]]]; rewrite E.
    - split; [intros _ | reflexivity].
      destruct H as [H | [H | [H _]]]; [now left | now right | discriminate].
    - split; [discriminate | tauto]. }
  assert (Hret :
    resource_verify_availability r_type r_uuid start end_ false st
      = Return tt
    <-> ~ (offer_blocks r_type r_uuid start end_ st
           \/ lease_blocks r_type r_uuid start end_ st)).
  { rewrite <- Hiff.
    destruct (resource_verify_availability_cases
                r_type r_uuid start end_ false st) as [[E _] | [E _]];
      rewrite E; split; congruence. }
  split; [exact Hiff | split; [exact Hret | split; [| split; reflexivity]]].
  intros Hoffers Hleases. apply Hret.
  intros [[o (Hin & Hu & Ht & Hs & Hov)] | [l (Hin & Hu & Ht & Hs & Hov)]].
  - exact (apart_or_touching_no_overlap _ _ _ _
             (Hoffers o Hin Hu Ht Hs) Hov).
  - exact (apart_or_touching_no_overlap _ _ _ _
             (Hleases l Hin Hu Ht Hs) Hov).
Qed.

Lemma resource_verify_availability_raises_iff_witness :
  resource_verify_availability "dummy_node" "1111" 30 50 false
    store_lease_50_60 = Return tt.
Proof.
  apply (proj1 (proj2 (proj2 (resource_verify_availability_raises_iff
                                "dummy_node" "1111" 30 50 store_lease_50_60)))).
  - simpl. intros o [].
  - simpl. intros l [<- | []] _ _ _. unfold apart_or_touching. simpl. lia.
Defined.

(** C7. [offer_verify_availability(offer, start, end)] raises
    [OfferNoTimeAvailabilities] whenever [start < offer.start_time] or
    [end > offer.end_time], whatever leases are stored; when the window lies
    within the offer's interval it raises if and only if some CREATED or
    ACTIVE lease of the offer conflicts with the window under the
    three-clause test, and returns otherwise. *)
Theorem offer_verify_availability_raises_iff :
  forall (offer_ref : Offer.t) (start end_ : Z) (st : store),
    (start < Offer.start_time offer_ref \/ end_ > Offer.end_time offer_ref ->
     offer_verify_availability offer_ref start end_ st
       = Raise (OfferNoTimeAvailabilities (Offer.uuid offer_ref) start end_))
    /\ (Offer.start_time offer_ref <= start ->
        end_ <= Offer.end_time offer_ref ->
        (offer_verify_availability offer_ref start end_ st
           = Raise (OfferNoTimeAvailabilities (Offer.uuid offer_ref)
                                              start end_)
         <-> offer_lease_blocks (Offer.uuid offer_ref) start end_ st)
        /\ (offer_verify_availability offer_ref start end_ st = Return tt
            <-> ~ offer_lease_blocks (Offer.uuid offer_ref) start end_ st)).
Proof.
  intros offer_ref start end_ st. unfold offer_verify_availability. split.
  - intros H.
    replace ((start <? Offer.start_time offer_ref)
             || (end_ >? Offer.end_time offer_ref)) with true; [reflexivity|].
    symmetry. rewrite orb_true_iff, Z.ltb_lt, Z.gtb_lt. lia.
  - intros Hs He.
    replace ((start <? Offer.start_time offer_ref)
             || (end_ >? Offer.end_time offer_ref)) with false.
    2:{ symmetry. rewrite orb_false_iff, Z.ltb_ge, Z.gtb_ltb, Z.ltb_ge. lia. }
    assert (Hsearch :
      truthy (first (filter (fun l => time_conflict start end_
                               (Lease.start_time l) (Lease.end_time l))
        (filter (fun l => null_eqb (Lease.offer_uuid l) (Offer.uuid offer_ref)
                          && (status_eqb (Lease.status l) CREATED
                              || status_eqb (Lease.status l) ACTIVE))
                (leases st)))) = true
      <-> offer_lease_blocks (Offer.uuid offer_ref) start end_ st).
    { rewrite truthy_first_filter. unfold offer_lease_blocks.
      split; intros [l H]; exists l; revert H;
        rewrite filter_In, !andb_true_iff, orb_true_iff, null_eqb_eq,
          !status_eqb_eq, time_conflict_iff; tauto. }
    destruct (truthy (first (filter _ (filter _ (leases st))))).
    + split; split; try reflexivity; try discriminate.
      * intros _. now apply Hsearch.
      * intros H. exfalso. apply H. now apply Hsearch.
    + split; split; try reflexivity; try discriminate.
      * intros H. apply Hsearch in H. discriminate.
      * intros _ H. apply Hsearch in H. discriminate.
Qed.

Lemma offer_verify_availability_raises_iff_witness :
  offer_verify_availability test_offer_1 90 105 empty_store
  = Raise (OfferNoTimeAvailabilities "11111" 90 105).
Proof.
  apply (proj1 (offer_verify_availability_raises_iff
                  test_offer_1 90 105 empty_store)).
  right. simpl. lia.
Defined.

(** C8. With [is_owner_change=False] the outcome of
    [resource_verify_availability] does not depend on the owner-change rows:
    on two stores with the same offers and the same leases the call returns
    or raises identically.  With [is_owner_change=True] the call raises
    [ResourceTimeConflict] if and only if the call with
    [is_owner_change=False] raises it or some CREATED or ACTIVE owner change
    on the resource conflicts with the window. *)
Theorem resource_verify_availability_owner_changes :
  (forall (r_type r_uuid : string) (start end_ : Z) (st1 st2 : store),
     offers st1 = offers st2 -> leases st1 = leases st2 ->
     resource_verify_availability r_type r_uuid start end_ false st1
     = resource_verify_availability r_type r_uuid start end_ false st2)
  /\ (forall (r_type r_uuid : string) (start end_ : Z) (st : store),
        resource_verify_availability r_type r_uuid start end_ true st
          = Raise (ResourceTimeConflict r_uuid r_type)
        <-> resource_verify_availability r_type r_uuid start end_ false st
              = Raise (ResourceTimeConflict r_uuid r_type)
            \/ owner_change_blocks r_type r_uuid start end_ st).
Proof.
  split.
  - intros r_type r_uuid start end_ st1 st2 Ho Hl.
    unfold resource_verify_availability. rewrite Ho, Hl.
    destruct (truthy (first (filter _ (filter _ (offers st2)))));
      [reflexivity|].
    destruct (truthy (first (filter _ (filter _ (leases st2)))));
      reflexivity.
  - intros r_type r_uuid start end_ st.
    destruct (resource_verify_availability_cases
                r_type r_uuid start end_ true st)
      as [[Et Ht] | [Et (Ho & Hl & Hc)]];
    destruct (resource_verify_availability_cases
                r_type r_uuid start end_ false st)
      as [[Ef Hf] | [Ef (Ho' & Hl' & _)]];
    rewrite Et, Ef.
    + tauto.
    + split; [intros _ | reflexivity].
      destruct Ht as [H | [H | [_ H]]]; [tauto | tauto | now right].
    + destruct Hf as [H | [H | [H _]]]; [tauto | tauto | discriminate].
    + split; [discriminate|].
      intros [H | H]; [discriminate | exfalso; now apply Hc].
Qed.

Lemma resource_verify_availability_owner_changes_witness :
  resource_verify_availability "dummy_node" "1111" 11 25 false
    (mkStore [] [] [oc1_data])
  = resource_verify_availability "dummy_node" "1111" 11 25 false empty_store
  /\ resource_verify_availability "dummy_node" "1111" 11 25 true
       (mkStore [] [] [oc1_data])
     = Raise (ResourceTimeConflict "1111" "dummy_node").
Proof.
  split.
  - apply (proj1 resource_verify_availability_owner_changes);
      reflexivity.
  - apply (proj2 resource_verify_availability_owner_changes).
    right. exists oc1_data. simpl. unfold overlap3. simpl.
    repeat split; auto. lia.
Defined.

(** ** The administration arbiter *)

Lemma straddles_iff (w_start w_end s e : Z) :
  straddles w_start w_end s e = true <-> straddle3 w_start w_end s e.
Proof.
  unfold straddles, straddle3.
  rewrite !orb_true_iff, !andb_true_iff.
  rewrite !Z.geb_le, !Z.gtb_lt, !Z.ltb_lt, !Z.leb_le. lia.
Qed.

Lemma filter_filter {A : Type} (p q : A -> bool) (l : list A) :
  filter q (filter p l) = filter (fun x => p x && q x) l.
Proof.
  induction l as [|x l IH]; simpl; [reflexivity|].
  destruct (p x); simpl; [destruct (q x)|]; now rewrite IH.
Qed.

(** The first query of [resource_check_admin]. *)
Lemma resource_check_admin_conflicts (r_type r_uuid : string)
    (w_start w_end : Z) (st : store) :
  filter (fun c => straddles w_start w_end (OwnerChange.start_time c)
                             (OwnerChange.end_time c))
         (filter (fun c => String.eqb (OwnerChange.resource_uuid c) r_uuid
                           && String.eqb (OwnerChange.resource_type c) r_type
                           && status_in [CREATED; ACTIVE]
                                        (OwnerChange.status c))
                 (owner_changes st))
  = straddling_changes r_type r_uuid w_start w_end st.
Proof. apply filter_filter. Qed.

(** The second query of [resource_check_admin]: what [owner_change_get_all]
    returns for the filters built there. *)
Lemma resource_check_admin_encompassing (r_type r_uuid : string)
    (w_start w_end : Z) (st : store) :
  owner_change_get_all
    (OwnerChangeFilters.mk (Some r_type) (Some r_uuid)
                           (Some w_start) (Some w_end)
                           (Some [CREATED; ACTIVE]) None) st
  = enclosing_changes r_type r_uuid w_start w_end st.
Proof.
  unfold owner_change_get_all, enclosing_changes, filter_by, live_on; simpl.
  rewrite !filter_filter. apply filter_ext. intros c.
  rewrite Z.geb_leb.
  destruct (String.eqb (OwnerChange.resource_type c) r_type),
           (String.eqb (OwnerChange.resource_uuid c) r_uuid);
    simpl; rewrite ?andb_assoc; reflexivity.
Qed.

(** [resource_check_admin] in terms of its two queries. *)
Lemma resource_check_admin_eq (r_type r_uuid : string) (w_start w_end : Z)
    (default_admin project_id : string) (st : store) :
  resource_check_admin r_type r_uuid w_start w_end default_admin project_id st
  = match straddling_changes r_type r_uuid w_start w_end st with
    | _ :: _ => false
    | [] =>
        match enclosing_changes r_type r_uuid w_start w_end st with
        | [] => String.eqb project_id default_admin
        | [c] => String.eqb project_id (OwnerChange.to_owner_id c)
        | _ :: _ :: _ => false
        end
    end.
Proof.
  unfold resource_check_admin.
  rewrite resource_check_admin_conflicts, resource_check_admin_encompassing.
  destruct (straddling_changes r_type r_uuid w_start w_end st);
    [|reflexivity].
  destruct (enclosing_changes r_type r_uuid w_start w_end st)
    as [|c [|c' l]]; reflexivity.
Qed.

Lemma live_on_iff (r_type r_uuid : string) (c : OwnerChange.t) :
  live_on r_type r_uuid c = true
  <-> OwnerChange.resource_uuid c = r_uuid
      /\ OwnerChange.resource_type c = r_type
      /\ (OwnerChange.status c = CREATED \/ OwnerChange.status c = ACTIVE).
Proof.
  unfold live_on.
  rewrite !andb_true_iff, !String.eqb_eq, status_in_created_active. tauto.
Qed.

(** C2 (counterexample). On the single owner change [[10,20)] and the window
    [[11,19)] no change
    straddles the window and none lies within it, yet the candidate
    [owner2], which is not the default administrator [owner1], is
    authorized. *)
Lemma resource_check_admin_contained_counterexample :
  straddling_changes "dummy_node" "1111" 11 19 store_oc1 = []
  /\ contained_changes "dummy_node" "1111" 11 19 store_oc1 = []
  /\ resource_check_admin "dummy_node" "1111" 11 19 "owner1" "owner2"
       store_oc1 = true
  /\ "owner2" <> "owner1".
Proof. repeat split; try reflexivity. discriminate. Qed.

(** C2 (amended). When no CREATED or ACTIVE owner change on the resource
    straddles the requested window: if exactly one CREATED or ACTIVE owner
    change on the resource has an interval that encloses the window
    ([OC.start <= window_start] and [window_end <= OC.end]),
    [resource_check_admin] returns true iff the candidate project equals
    that change's [to_owner_id]; if no such enclosing change exists, it
    returns true iff the candidate project equals the default admin
    project. *)
Theorem resource_check_admin_enclosing :
  forall (r_type r_uuid : string) (w_start w_end : Z)
         (default_admin project_id : string) (st : store),
    straddling_changes r_type r_uuid w_start w_end st = [] ->
    (forall c, enclosing_changes r_type r_uuid w_start w_end st = [c] ->
       (resource_check_admin r_type r_uuid w_start w_end default_admin
                             project_id st = true
        <-> project_id = OwnerChange.to_owner_id c))
    /\ (enclosing_changes r_type r_uuid w_start w_end st = [] ->
        (resource_check_admin r_type r_uuid w_start w_end default_admin
                              project_id st = true
         <-> project_id = default_admin)).
Proof.
  intros r_type r_uuid w_start w_end default_admin project_id st Hnone.
  rewrite resource_check_admin_eq, Hnone. split.
  - intros c Hone. rewrite Hone. apply String.eqb_eq.
  - intros Hzero. rewrite Hzero. apply String.eqb_eq.
Qed.

Lemma resource_check_admin_enclosing_witness :
  resource_check_admin "dummy_node" "1111" 11 19 "owner1" "owner2" store_oc1
    = true
  <-> "owner2" = OwnerChange.to_owner_id oc1_data.
Proof.
  apply (proj1 (resource_check_admin_enclosing
                  "dummy_node" "1111" 11 19 "owner1" "owner2" store_oc1
                  eq_refl) oc1_data).
  reflexivity.
Defined.

(** C3. [resource_check_admin] returns false whenever some CREATED or ACTIVE
    owner change on the resource straddles the requested window (the
    three-clause straddle test), whatever the candidate project and the
    default admin project.  With the single owner change [[10,20)] to
    [owner2], the call for the window [[11,19)] returns true for the
    candidate [owner2] and false for the candidate [owner1]; the call for
    the window [[9,12)] returns false for every candidate. *)
Theorem resource_check_admin_straddle_denies :
  (forall (r_type r_uuid : string) (w_start w_end : Z)
          (default_admin project_id : string) (st : store)
          (c : OwnerChange.t),
     In c (owner_changes st) ->
     OwnerChange.resource_uuid c = r_uuid ->
     OwnerChange.resource_type c = r_type ->
     OwnerChange.status c = CREATED \/ OwnerChange.status c = ACTIVE ->
     straddle3 w_start w_end (OwnerChange.start_time c)
               (OwnerChange.end_time c) ->
     resource_check_admin r_type r_uuid w_start w_end default_admin
                          project_id st = false)
  /\ (forall default_admin,
        resource_check_admin "dummy_node" "1111" 11 19 default_admin
                             "owner2" store_oc1 = true)
  /\ (forall default_admin,
        resource_check_admin "dummy_node" "1111" 11 19 default_admin
                             "owner1" store_oc1 = false)
  /\ (forall default_admin project_id,
        resource_check_admin "dummy_node" "1111" 9 12 default_admin
                             project_id store_oc1 = false).
Proof.
  split; [| repeat split; intros; reflexivity].
  intros r_type r_uuid w_start w_end default_admin project_id st c
         Hin Hu Ht Hs Hstr.
  rewrite resource_check_admin_eq.
  assert (Hc : In c (straddling_changes r_type r_uuid w_start w_end st)).
  { unfold straddling_changes. apply filter_In. split; [exact Hin|].
    apply andb_true_iff. split.
    - apply live_on_iff. tauto.
    - now apply straddles_iff. }
  destruct (straddling_changes r_type r_uuid w_start w_end st);
    [contradiction | reflexivity].
Qed.

Lemma resource_check_admin_straddle_denies_witness :
  resource_check_admin "dummy_node" "1111" 9 12 "owner1" "owner1" store_oc1
  = false.
Proof.
  apply (proj1 resource_check_admin_straddle_denies
               "dummy_node" "1111" 9 12 "owner1" "owner1" store_oc1 oc1_data).
  - simpl. now left.
  - reflexivity.
  - reflexivity.
  - left. reflexivity.
  - unfold straddle3. simpl. lia.
Defined.

(** ** The availability calculator *)

Lemma scan_loop_gaps (o_end : Z) (occupied : list (Z * Z)) :
  forall (cursor : Z) (gaps : list (Z * Z)),
    (let '(c, g) := fold_left scan_step occupied (cursor, gaps) in
     if c <? o_end then g ++ [(c, o_end)] else g)
    = gaps ++ scan_gaps cursor occupied o_end.
Proof.
  induction occupied as [|[s e] rest IH]; intros cursor gaps; simpl.
  - destruct (cursor <? o_end); [reflexivity | now rewrite app_nil_r].
  - rewrite IH. destruct (cursor <? s); simpl.
    + now rewrite <- app_assoc.
    + reflexivity.
Qed.

Lemma scan_gaps_nonempty (o_end : Z) (occupied : list (Z * Z)) :
  forall cursor, Forall (fun g => fst g < snd g)
                        (scan_gaps cursor occupied o_end).
Proof.
  induction occupied as [|[s e] rest IH]; intros cursor; simpl.
  - destruct (cursor <? o_end) eqn:E; constructor; [|constructor].
    simpl. now apply Z.ltb_lt.
  - apply Forall_app. split; [|apply IH].
    destruct (cursor <? s) eqn:E; constructor; [|constructor].
    simpl. now apply Z.ltb_lt.
Qed.

(** The gaps are the complement of the occupied set within
    [[cursor, o_end)]. *)
Lemma scan_gaps_complement (o_end : Z) (occupied : list (Z * Z)) :
  forall cursor,
    StronglySorted (fun a b => fst a <= fst b) occupied ->
    Forall (fun i => fst i <= o_end) occupied ->
    forall t,
      Exists (within t) (scan_gaps cursor occupied o_end)
      <-> cursor <= t < o_end /\ Forall (fun i => ~ within t i) occupied.
Proof.
  unfold within.
  induction occupied as [|[s e] rest IH]; intros cursor Hsorted Hin t; simpl.
  - destruct (cursor <? o_end) eqn:E.
    + rewrite Exists_cons, Exists_nil. simpl.
      split; [intros [H | []]; split; [exact H | constructor] | tauto].
    + rewrite Exists_nil. apply Z.ltb_ge in E.
      split; [contradiction | intros [H _]; lia].
  - inversion Hsorted as [|? ? Hrest Hle]; subst.
    inversion Hin as [|? ? Hs Hin']; subst. simpl in Hs.
    rewrite Exists_app, (IH (Z.max cursor e) Hrest Hin' t), Forall_cons_iff.
    simpl.
    assert (Hlater : t < s -> Forall (fun i => ~ fst i <= t < snd i) rest).
    { intros Hts. apply Forall_forall. intros i Hi.
      rewrite Forall_forall in Hle. specialize (Hle i Hi). simpl in Hle.
      lia. }
    destruct (cursor <? s) eqn:E.
    + apply Z.ltb_lt in E. rewrite Exists_cons, Exists_nil. simpl.
      split.
      * intros [[H | []] | [H Hall]].
        -- repeat split; try lia. apply Hlater. lia.
        -- repeat split; try lia. exact Hall.
      * intros [H [Hnot Hall]].
        destruct (Z.lt_ge_cases t s); [left; left; lia | right].
        split; [lia | exact Hall].
    + apply Z.ltb_ge in E. rewrite Exists_nil.
      split.
      * intros [[] | [H Hall]]. repeat split; try lia. exact Hall.
      * intros [H [Hnot Hall]]. right. split; [lia | exact Hall].
Qed.

(** C4. The availability computation returns exactly the gaps of the cursor
    scan: the cursor starts at the offer's start; for each occupied
    [[s,e)], [[cursor, s)] is emitted when [cursor < s] and the cursor
    becomes [max(cursor, e)]; after the scan [[cursor, offer.end)] is
    emitted when [cursor < offer.end].  No empty or negative-length gap is
    emitted.  For occupied intervals ascending by start that begin no later
    than the offer's end, the gaps are the times of the offer that no
    occupied interval covers.  For the offer [[0,100)] with occupied
    [[10,20)], [[20,30)], [[50,60)] the output is [[0,10)], [[30,50)],
    [[60,100)]; with occupied [[0,100)] it is empty; with no occupied
    interval it is the offer's interval; the leases of the test offer
    yield the first of these through [offer_get_conflict_times]. *)
Theorem availabilities_cursor_scan :
  forall (o_start o_end : Z) (occupied : list (Z * Z)),
    availabilities o_start o_end occupied = scan_gaps o_start occupied o_end
    /\ Forall (fun g => fst g < snd g)
              (availabilities o_start o_end occupied)
    /\ (sorted_by_start occupied ->
        Forall (fun i => fst i <= o_end) occupied ->
        forall t,
          Exists (within t) (availabilities o_start o_end occupied)
          <-> o_start <= t < o_end
              /\ Forall (fun i => ~ within t i) occupied)
    /\ availabilities 0 100 [(10, 20); (20, 30); (50, 60)]
       = [(0, 10); (30, 50); (60, 100)]
    /\ availabilities 0 100 [(0, 100)] = []
    /\ availabilities 0 100 [] = [(0, 100)]
    /\ get_availabilities test_offer_1 store_offer_1
       = [(0, 10); (30, 50); (60, 100)].
Proof.
  intros o_start o_end occupied.
  assert (E : availabilities o_start o_end occupied
              = scan_gaps o_start occupied o_end).
  { unfold availabilities.
    exact (scan_loop_gaps o_end occupied o_start []). }
  rewrite E.
  split; [reflexivity|].
  split; [apply scan_gaps_nonempty|].
  split; [| repeat split; reflexivity].
  intros Hsorted Hin t. apply scan_gaps_complement; [|exact Hin].
  apply Sorted_StronglySorted; [|exact Hsorted].
  intros a b c Hab Hbc. lia.
Qed.

Lemma availabilities_cursor_scan_witness :
  Exists (within 35) (availabilities 0 100 [(10, 20); (20, 30); (50, 60)])
  <-> 0 <= 35 < 100
      /\ Forall (fun i => ~ within 35 i) [(10, 20); (20, 30); (50, 60)].
Proof.
  apply (proj1 (proj2 (proj2 (availabilities_cursor_scan
                                0 100 [(10, 20); (20, 30); (50, 60)])))).
  - unfold sorted_by_start.
    repeat (constructor; simpl; try lia).
  - repeat (constructor; simpl; try lia).
Defined.

(** ** Ordered queries *)

Section OrderBy.
Context {A : Type} (key : A -> Z).

Let key_le (a b : A) : Prop := key a <= key b.

Lemma insert_by_In (x y : A) (l : list A) :
  In y (insert_by key x l) <-> y = x \/ In y l.
Proof.
  induction l as [|z l IH]; simpl.
  - intuition.
  - destruct (key x <=? key z); simpl; [intuition|].
    rewrite IH. intuition.
Qed.

Lemma order_by_In (y : A) (l : list A) :
  In y (order_by key l) <-> In y l.
Proof.
  induction l as [|x l IH]; simpl; [tauto|].
  rewrite insert_by_In, IH. intuition.
Qed.

Lemma insert_by_sorted (x : A) (l : list A) :
  StronglySorted key_le l -> StronglySorted key_le (insert_by key x l).
Proof.
  induction 1 as [|z l Hl IH Hz]; simpl.
  - repeat constructor.
  - destruct (key x <=? key z) eqn:E.
    + apply Z.leb_le in E. constructor; [now constructor|].
      constructor; [exact E|].
      eapply Forall_impl; [|exact Hz].
      unfold key_le. intros a Ha. lia.
    + apply Z.leb_gt in E. constructor; [exact IH|].
      apply Forall_forall. intros a Ha. apply insert_by_In in Ha.
      destruct Ha as [-> | Ha].
      * unfold key_le. lia.
      * rewrite Forall_forall in Hz. now apply Hz.
Qed.

Lemma order_by_sorted (l : list A) : StronglySorted key_le (order_by key l).
Proof.
  induction l as [|x l IH]; simpl; [constructor|].
  now apply insert_by_sorted.
Qed.

Lemma filter_sorted (p : A -> bool) (l : list A) :
  StronglySorted key_le l -> StronglySorted key_le (filter p l).
Proof.
  induction 1 as [|z l Hl IH Hz]; simpl; [constructor|].
  destruct (p z); [|exact IH].
  constructor; [exact IH|].
  apply Forall_forall. intros a Ha. apply filter_In in Ha.
  rewrite Forall_forall in Hz. now apply Hz.
Qed.

(** The first row of a filtered, ordered query has the least key among
    the rows the filter keeps, and there is none when the filter keeps
    no row. *)
Lemma first_order_by_least (p : A -> bool) (l : list A) :
  match first (filter p (order_by key l)) with
  | Some x => In x l /\ p x = true
              /\ forall y, In y l -> p y = true -> key x <= key y
  | None => forall y, In y l -> p y = false
  end.
Proof.
  pose proof (filter_sorted p _ (order_by_sorted l)) as Hs.
  assert (Hin : forall y, In y (filter p (order_by key l))
                          <-> In y l /\ p y = true).
  { intros y. now rewrite filter_In, order_by_In. }
  destruct (filter p (order_by key l)) as [|x q]; simpl.
  - intros y Hy. destruct (p y) eqn:E; [|reflexivity].
    exfalso. apply (proj2 (Hin y)). now split.
  - destruct (proj1 (Hin x) (or_introl eq_refl)) as [Hx Hp].
    repeat split; [exact Hx | exact Hp |].
    intros y Hy Hpy.
    destruct (proj2 (Hin y) (conj Hy Hpy)) as [<- | Hq]; [lia|].
    inversion Hs as [|? ? _ Hall]; subst.
    rewrite Forall_forall in Hall. now apply Hall.
Qed.
End OrderBy.

(** [offer_get_conflict_times] returns its intervals ascending by start. *)
Lemma offer_get_conflict_times_sorted (offer_ref : Offer.t) (st : store) :
  sorted_by_start (offer_get_conflict_times offer_ref st).
Proof.
  unfold sorted_by_start, offer_get_conflict_times.
  apply StronglySorted_Sorted.
  set (p := fun l : Lease.t => _ && _).
  pose proof (filter_sorted Lease.start_time p _
                (order_by_sorted Lease.start_time
                   (join_offer (leases st) (offers st)))) as Hs.
  induction Hs as [|l q Hq IH Hl]; simpl; constructor; [exact IH|].
  apply Forall_forall. intros i Hi. apply in_map_iff in Hi.
  destruct Hi as [l' [<- Hl']]. simpl.
  rewrite Forall_forall in Hl. now apply Hl.
Qed.

(** ** Claiming an offer *)

Lemma offer_get_first_availability_spec (offer_uuid : string) (start : Z)
    (st : store) :
  match offer_get_first_availability offer_uuid start st with
  | Some q_start_time =>
      exists l, first_occupying offer_uuid start st l
                /\ q_start_time = Lease.start_time l
  | None => forall l, ~ occupies_from offer_uuid start st l
  end.
Proof.
  unfold offer_get_first_availability.
  set (p := fun l : Lease.t => _ && _).
  assert (Hp : forall l, p l = true
                         <-> Lease.offer_uuid l = Some offer_uuid
                             /\ (Lease.status l = CREATED
                                 \/ Lease.status l = ACTIVE)).
  { intros l. unfold p.
    now rewrite andb_true_iff, orb_true_iff, null_eqb_eq, !status_eqb_eq. }
  pose proof (first_order_by_least Lease.start_time
                (fun l => Lease.end_time l >=? start)
                (filter p (leases st))) as H.
  unfold first in *.
  destruct (filter _ (order_by Lease.start_time (filter p (leases st))))
    as [|l q]; simpl in *.
  - intros l (Hin & Hu & Hs & He).
    assert (Hl : In l (filter p (leases st))).
    { apply filter_In. split; [exact Hin | now apply Hp]. }
    specialize (H l Hl). simpl in H.
    rewrite Z.geb_leb in H. apply Z.leb_gt in H. lia.
  - destruct H as (Hin & He & Hmin). apply filter_In in Hin.
    destruct Hin as [Hin Hpl]. apply Hp in Hpl. apply Z.geb_le in He.
    exists l. split; [|reflexivity]. split.
    + unfold occupies_from. repeat split; try tauto. lia.
    + intros l' (Hin' & Hu' & Hs' & He'). apply Hmin.
      * apply filter_In. split; [exact Hin' | now apply Hp].
      * apply Z.geb_le. lia.
Qed.

(** C9. When a claim request omits [end_time], the new lease's [end_time]
    is resolved to the [start_time] of the CREATED or ACTIVE lease on the
    offer with the smallest [start_time] among those whose [end_time] is at
    or after the claim's [start_time], or to the offer's [end_time] when no
    such lease exists; one of the two cases always applies. *)
Theorem claim_end_time_resolution :
  forall (now : Z) (request_project_id new_uuid : string) (offer : Offer.t)
         (new_lease : LeaseValues.t) (st : store),
    LeaseValues.end_time new_lease = None ->
    let start := claim_start now new_lease in
    let lease_dict :=
      claim_lease_dict now request_project_id new_uuid offer new_lease st in
    LeaseValues.start_time lease_dict = Some start
    /\ (forall l, first_occupying (Offer.uuid offer) start st l ->
          LeaseValues.end_time lease_dict = Some (Lease.start_time l))
    /\ ((forall l, ~ occupies_from (Offer.uuid offer) start st l) ->
        LeaseValues.end_time lease_dict = Some (Offer.end_time offer))
    /\ ((exists l, first_occupying (Offer.uuid offer) start st l)
        \/ (forall l, ~ occupies_from (Offer.uuid offer) start st l)).
Proof.
  intros now request_project_id new_uuid offer new_lease st Hend start
         lease_dict.
  unfold lease_dict, claim_lease_dict. simpl. rewrite Hend.
  fold (claim_start now new_lease). fold start.
  unfold Offer_get_first_availability.
  pose proof (offer_get_first_availability_spec (Offer.uuid offer) start st)
    as H.
  destruct (offer_get_first_availability (Offer.uuid offer) start st)
    as [q_start_time|].
  - destruct H as [l0 [[Hocc Hmin] ->]].
    split; [reflexivity|]. split; [|split].
    + intros l [Hocc' Hmin']. f_equal.
      apply Z.le_antisymm; [exact (Hmin l Hocc') | exact (Hmin' l0 Hocc)].
    + intros Hnone. exfalso. exact (Hnone l0 Hocc).
    + left. exists l0. now split.
  - split; [reflexivity|]. split; [|split].
    + intros l [Hocc _]. exfalso. exact (H l Hocc).
    + reflexivity.
    + now right.
Qed.

Lemma claim_end_time_resolution_witness :
  LeaseValues.end_time
    (claim_lease_dict 5 "1e5533" "44444" test_offer_1 LeaseValues.empty
                      store_offer_1)
  = Some (Lease.start_time test_lease_1).
Proof.
  apply (proj1 (proj2 (claim_end_time_resolution
                         5 "1e5533" "44444" test_offer_1 LeaseValues.empty
                         store_offer_1 eq_refl)) test_lease_1).
  split.
  - split; [simpl; tauto|]. split; [reflexivity|].
    split; [now left|]. vm_compute. discriminate.
  - intros l' [Hin _]. simpl in Hin.
    destruct Hin as [<- | [<- | [<- | []]]]; simpl; lia.
Defined.

(** ** Destroying rows *)

Ltac run_session H :=
  unfold bind, model_query, lift, ret, raise; simpl; rewrite H; simpl.

Lemma offer_destroy_absent (u : string) (st : store) :
  filter (offer_uuid_is u) (offers st) = [] ->
  offer_destroy u st = (Raise (OfferNotFound u), st).
Proof. intros H. unfold offer_destroy. now run_session H. Qed.

Lemma offer_destroy_found (u : string) (st : store) (o : Offer.t) :
  filter (offer_uuid_is u) (offers st) = [o] ->
  offer_destroy u st
  = (Return tt,
     mkStore (filter (fun r => negb (offer_uuid_is u r)) (offers st))
             (leases st) (owner_changes st)).
Proof. intros H. unfold offer_destroy. now run_session H. Qed.

Lemma lease_destroy_absent (u : string) (st : store) :
  filter (lease_uuid_is u) (leases st) = [] ->
  lease_destroy u st = (Raise (LeaseNotFound u), st).
Proof. intros H. unfold lease_destroy. now run_session H. Qed.

Lemma filter_none {A : Type} (l : list A) :
  filter (fun r => negb (every_row r)) l = [].
Proof. induction l; simpl; auto. Qed.

(** A found lease takes every lease with it. *)
Lemma lease_destroy_found (u : string) (st : store) (l : Lease.t) :
  filter (lease_uuid_is u) (leases st) = [l] ->
  lease_destroy u st
  = (Return tt, mkStore (offers st) [] (owner_changes st)).
Proof.
  intros H. unfold lease_destroy. run_session H.
  unfold delete_leases. now rewrite filter_none.
Qed.

Lemma owner_change_destroy_absent (u : string) (st : store) :
  filter (owner_change_uuid_is u) (owner_changes st) = [] ->
  owner_change_destroy u st = (Raise (OwnerChangeNotFound u), st).
Proof. intros H. unfold owner_change_destroy. now run_session H. Qed.

(** A found owner change takes every owner change with it. *)
Lemma owner_change_destroy_found (u : string) (st : store)
    (c : OwnerChange.t) :
  filter (owner_change_uuid_is u) (owner_changes st) = [c] ->
  owner_change_destroy u st
  = (Return tt, mkStore (offers st) (leases st) []).
Proof.
  intros H. unfold owner_change_destroy. run_session H.
  unfold delete_owner_changes. now rewrite filter_none.
Qed.

(** The rows [offer_destroy] leaves are those of another uuid, unchanged
    and in their order. *)
Lemma offer_destroy_frame (u : string) (st : store) (o : Offer.t) :
  filter (offer_uuid_is u) (offers st) = [o] ->
  forall st', snd (offer_destroy u st) = st' ->
    leases st' = leases st
    /\ owner_changes st' = owner_changes st
    /\ forall r, In r (offers st')
                 <-> In r (offers st) /\ Offer.uuid r <> u.
Proof.
  intros H st' <-. rewrite (offer_destroy_found u st o H). simpl.
  split; [reflexivity|]. split; [reflexivity|].
  intros r. rewrite filter_In. unfold offer_uuid_is.
  now rewrite negb_true_iff, String.eqb_neq.
Qed.

(** C5 (the code at the failing inputs). [lease_destroy] called with the
    uuid of the first of two stored leases returns normally and leaves no
    lease in the store: the second lease, of another uuid, is removed too.
    [owner_change_destroy] does the same to the owner changes.
    [offer_destroy] on the same store removes only the offer of the given
    uuid. *)
Theorem destroy_removes_rows_of_other_uuid :
  lease_destroy "11111" store_two_leases
    = (Return tt, mkStore [test_offer_1] [] [oc1_data])
  /\ In test_lease_2 (leases store_two_leases)
  /\ Lease.uuid test_lease_2 <> "11111"
  /\ owner_change_destroy "11111" store_two_owner_changes
     = (Return tt, mkStore [test_offer_1] [test_lease_1] [])
  /\ In oc2_data (owner_changes store_two_owner_changes)
  /\ OwnerChange.uuid oc2_data <> "11111"
  /\ offer_destroy "11111" store_two_leases
     = (Return tt, mkStore [] [test_lease_1; test_lease_2] [oc1_data]).
Proof.
  repeat split; try reflexivity; simpl; try tauto; discriminate.
Qed.

(** ** Updating rows *)

Lemma offer_update_found (u : string) (values : OfferValues.t) (st : store)
    (r : Offer.t) :
  filter (offer_uuid_is u) (offers st) = [r] ->
  offer_update u values st
  = let start := set (OfferValues.start_time values) (Offer.start_time r) in
    let end_ := set (OfferValues.end_time values) (Offer.end_time r) in
    let row :=
      offer_row_update
        r (OfferValues.pop_project_id (OfferValues.pop_uuid values)) in
    if start >=? end_
    then (Raise (InvalidTimeRange "an offer" start end_), st)
    else (Return row,
          mkStore (flush_row (offer_uuid_is u) row (offers st))
                  (leases st) (owner_changes st)).
Proof.
  intros H. unfold offer_update. run_session H.
  destruct (OfferValues.start_time values) as [s|],
           (OfferValues.end_time values) as [e|]; simpl;
    match goal with |- context [?a >=? ?b] => destruct (a >=? b) end;
    reflexivity.
Qed.

Lemma lease_update_found (u : string) (values : LeaseValues.t) (st : store)
    (r : Lease.t) :
  filter (lease_uuid_is u) (leases st) = [r] ->
  lease_update u values st
  = let start := set (LeaseValues.start_time values) (Lease.start_time r) in
    let end_ := set (LeaseValues.end_time values) (Lease.end_time r) in
    let row :=
      lease_row_update
        r (LeaseValues.pop_project_id (LeaseValues.pop_uuid values)) in
    if start >=? end_
    then (Raise (InvalidTimeRange "a lease" start end_), st)
    else (Return row,
          mkStore (offers st)
                  (flush_row (lease_uuid_is u) row (leases st))
                  (owner_changes st)).
Proof.
  intros H. unfold lease_update. run_session H.
  destruct (LeaseValues.start_time values) as [s|],
           (LeaseValues.end_time values) as [e|]; simpl;
    match goal with |- context [?a >=? ?b] => destruct (a >=? b) end;
    reflexivity.
Qed.

Lemma owner_change_update_found (u : string) (values : OwnerChangeValues.t)
    (st : store) (r : OwnerChange.t) :
  filter (owner_change_uuid_is u) (owner_changes st) = [r] ->
  owner_change_update u values st
  = let start := set (OwnerChangeValues.start_time values)
                     (OwnerChange.start_time r) in
    let end_ := set (OwnerChangeValues.end_time values)
                    (OwnerChange.end_time r) in
    let row :=
      owner_change_row_update r (OwnerChangeValues.pop_identity values) in
    if start >=? end_
    then (Raise (InvalidTimeRange "an owner_change" start end_), st)
    else (Return row,
          mkStore (offers st) (leases st)
                  (flush_row (owner_change_uuid_is u) row
                             (owner_changes st))).
Proof.
  intros H. unfold owner_change_update. run_session H.
  destruct (OwnerChangeValues.start_time values) as [s|],
           (OwnerChangeValues.end_time values) as [e|]; simpl;
    match goal with |- context [?a >=? ?b] => destruct (a >=? b) end;
    reflexivity.
Qed.

Lemma offer_update_absent (u : string) (values : OfferValues.t) (st : store) :
  filter (offer_uuid_is u) (offers st) = [] ->
  offer_update u values st
  = (Raise (absent_row_exn "an offer" (OfferValues.start_time values)
                           (OfferValues.end_time values)), st).
Proof.
  intros H. unfold offer_update, absent_row_exn. run_session H.
  destruct (OfferValues.start_time values) as [s|],
           (OfferValues.end_time values) as [e|]; simpl; try reflexivity.
  destruct (s >=? e); reflexivity.
Qed.

Lemma lease_update_absent (u : string) (values : LeaseValues.t) (st : store) :
  filter (lease_uuid_is u) (leases st) = [] ->
  lease_update u values st
  = (Raise (absent_row_exn "a lease" (LeaseValues.start_time values)
                           (LeaseValues.end_time values)), st).
Proof.
  intros H. unfold lease_update, absent_row_exn. run_session H.
  destruct (LeaseValues.start_time values) as [s|],
           (LeaseValues.end_time values) as [e|]; simpl; try reflexivity.
  destruct (s >=? e); reflexivity.
Qed.

Lemma owner_change_update_absent (u : string) (values : OwnerChangeValues.t)
    (st : store) :
  filter (owner_change_uuid_is u) (owner_changes st) = [] ->
  owner_change_update u values st
  = (Raise (absent_row_exn "an owner_change"
                           (OwnerChangeValues.start_time values)
                           (OwnerChangeValues.end_time values)), st).
Proof.
  intros H. unfold owner_change_update, absent_row_exn. run_session H.
  destruct (OwnerChangeValues.start_time values) as [s|],
           (OwnerChangeValues.end_time values) as [e|]; simpl;
    try reflexivity.
  destruct (s >=? e); reflexivity.
Qed.

Lemma validates_time_range_if {R : Type} (resource : string)
    (start end_ : Z) (st st' : store) (row : R) :
  validates_time_range resource start end_ st
    (if start >=? end_
     then (Raise (InvalidTimeRange resource start end_), st)
     else (Return row, st')).
Proof.
  unfold validates_time_range.
  destruct (start >=? end_) eqn:E; simpl.
  - apply Z.geb_le in E. repeat split; try reflexivity; try lia.
  - rewrite Z.geb_leb in E. apply Z.leb_gt in E.
    repeat split; try discriminate; try lia.
    intros _. now exists row.
Qed.

Lemma absent_row_exn_ok (resource : string) (start end_ : option Z)
    {R : Type} (st : store) :
  fails_without_not_found (R := R) (start = None \/ end_ = None) st
    (Raise (absent_row_exn resource start end_), st).
Proof.
  exists (absent_row_exn resource start end_).
  split; [reflexivity|]. unfold absent_row_exn.
  destruct start as [s|], end_ as [e|]; simpl;
    try (split; [reflexivity | reflexivity]).
  destruct (s >=? e); split; try reflexivity;
    intros [H | H]; discriminate.
Qed.

Lemma filter_uuid_absent {A : Type} (uuid : A -> string) (u : string)
    (l : list A) :
  (forall r, In r l -> uuid r <> u) ->
  filter (fun r => String.eqb (uuid r) u) l = [].
Proof.
  induction l as [|x l IH]; simpl; intros H; [reflexivity|].
  destruct (String.eqb_spec (uuid x) u) as [E | _].
  - exfalso. exact (H x (or_introl eq_refl) E).
  - apply IH. intros r Hr. apply H. now right.
Qed.

(** C6. For a stored reservation with [start_time < end_time] and any
    [values], each of [offer_update], [lease_update] and
    [owner_change_update] raises [InvalidTimeRange] if and only if the
    resolved bounds - the supplied value of [start_time] and of [end_time],
    or the stored one when omitted - satisfy [start >= end]; when it raises
    the store is unchanged, and otherwise it returns the row.  An update
    that supplies neither bound (one of [properties] only, say) returns
    and writes back a row with the stored [start_time] and [end_time]. *)
Theorem update_validates_time_range :
  (forall (u : string) (values : OfferValues.t) (st : store) (r : Offer.t),
     filter (offer_uuid_is u) (offers st) = [r] ->
     Offer.start_time r < Offer.end_time r ->
     validates_time_range "an offer"
       (set (OfferValues.start_time values) (Offer.start_time r))
       (set (OfferValues.end_time values) (Offer.end_time r))
       st (offer_update u values st)
     /\ (OfferValues.start_time values = None ->
         OfferValues.end_time values = None ->
         exists row,
           offer_update u values st
           = (Return row,
              mkStore (flush_row (offer_uuid_is u) row (offers st))
                      (leases st) (owner_changes st))
           /\ Offer.start_time row = Offer.start_time r
           /\ Offer.end_time row = Offer.end_time r))
  /\ (forall (u : string) (values : LeaseValues.t) (st : store)
             (r : Lease.t),
        filter (lease_uuid_is u) (leases st) = [r] ->
        Lease.start_time r < Lease.end_time r ->
        validates_time_range "a lease"
          (set (LeaseValues.start_time values) (Lease.start_time r))
          (set (LeaseValues.end_time values) (Lease.end_time r))
          st (lease_update u values st)
        /\ (LeaseValues.start_time values = None ->
            LeaseValues.end_time values = None ->
            exists row,
              lease_update u values st
              = (Return row,
                 mkStore (offers st)
                         (flush_row (lease_uuid_is u) row (leases st))
                         (owner_changes st))
              /\ Lease.start_time row = Lease.start_time r
              /\ Lease.end_time row = Lease.end_time r))
  /\ (forall (u : string) (values : OwnerChangeValues.t) (st : store)
             (r : OwnerChange.t),
        filter (owner_change_uuid_is u) (owner_changes st) = [r] ->
        OwnerChange.start_time r < OwnerChange.end_time r ->
        validates_time_range "an owner_change"
          (set (OwnerChangeValues.start_time values)
               (OwnerChange.start_time r))
          (set (OwnerChangeValues.end_time values) (OwnerChange.end_time r))
          st (owner_change_update u values st)
        /\ (OwnerChangeValues.start_time values = None ->
            OwnerChangeValues.end_time values = None ->
            exists row,
              owner_change_update u values st
              = (Return row,
                 mkStore (offers st) (leases st)
                         (flush_row (owner_change_uuid_is u) row
                                    (owner_changes st)))
              /\ OwnerChange.start_time row = OwnerChange.start_time r
              /\ OwnerChange.end_time row = OwnerChange.end_time r)).
Proof.
  split; [|split].
  - intros u values st r Hfound Hlt.
    rewrite (offer_update_found u values st r Hfound). cbv zeta.
    split; [apply validates_time_range_if|].
    intros Hs He. rewrite Hs, He. simpl.
    replace (Offer.start_time r >=? Offer.end_time r) with false
      by (symmetry; rewrite Z.geb_leb; apply Z.leb_gt; lia).
    eexists. split; [reflexivity|]. simpl. rewrite Hs, He. now split.
  - intros u values st r Hfound Hlt.
    rewrite (lease_update_found u values st r Hfound). cbv zeta.
    split; [apply validates_time_range_if|].
    intros Hs He. rewrite Hs, He. simpl.
    replace (Lease.start_time r >=? Lease.end_time r) with false
      by (symmetry; rewrite Z.geb_leb; apply Z.leb_gt; lia).
    eexists. split; [reflexivity|]. simpl. rewrite Hs, He. now split.
  - intros u values st r Hfound Hlt.
    rewrite (owner_change_update_found u values st r Hfound). cbv zeta.
    split; [apply validates_time_range_if|].
    intros Hs He. rewrite Hs, He. simpl.
    replace (OwnerChange.start_time r >=? OwnerChange.end_time r) with false
      by (symmetry; rewrite Z.geb_leb; apply Z.leb_gt; lia).
    eexists. split; [reflexivity|]. simpl. rewrite Hs, He. now split.
Qed.

Lemma update_validates_time_range_witness :
  validates_time_range "an offer" 101 100 store_two_leases
    (offer_update "11111"
       (OfferValues.mk None None None None None None (Some 101) None None
                       None)
       store_two_leases).
Proof.
  apply (proj1 (proj1 update_validates_time_range
                      "11111"
                      (OfferValues.mk None None None None None None
                                      (Some 101) None None None)
                      store_two_leases test_offer_1 eq_refl eq_refl)).
Defined.

(** C10. For a uuid with no stored row of the kind, each of [offer_update],
    [lease_update] and [owner_change_update] neither returns normally nor
    raises the kind's [NotFound] error: the [None] result of the lookup is
    dereferenced - when a time bound is omitted, while resolving the
    bounds - and the store is left unchanged; the destroy operation of the
    kind raises [NotFound] for the same uuid. *)
Theorem update_of_absent_row :
  (forall (u : string) (values : OfferValues.t) (st : store),
     (forall o, In o (offers st) -> Offer.uuid o <> u) ->
     fails_without_not_found
       (OfferValues.start_time values = None
        \/ OfferValues.end_time values = None)
       st (offer_update u values st)
     /\ offer_destroy u st = (Raise (OfferNotFound u), st))
  /\ (forall (u : string) (values : LeaseValues.t) (st : store),
        (forall l, In l (leases st) -> Lease.uuid l <> u) ->
        fails_without_not_found
          (LeaseValues.start_time values = None
           \/ LeaseValues.end_time values = None)
          st (lease_update u values st)
        /\ lease_destroy u st = (Raise (LeaseNotFound u), st))
  /\ (forall (u : string) (values : OwnerChangeValues.t) (st : store),
        (forall c, In c (owner_changes st) -> OwnerChange.uuid c <> u) ->
        fails_without_not_found
          (OwnerChangeValues.start_time values = None
           \/ OwnerChangeValues.end_time values = None)
          st (owner_change_update u values st)
        /\ owner_change_destroy u st = (Raise (OwnerChangeNotFound u), st)).
Proof.
  split; [|split]; intros u values st Habsent.
  - pose proof (filter_uuid_absent Offer.uuid u (offers st) Habsent) as H.
    rewrite (offer_update_absent u values st H).
    split; [apply absent_row_exn_ok | now apply offer_destroy_absent].
  - pose proof (filter_uuid_absent Lease.uuid u (leases st) Habsent) as H.
    rewrite (lease_update_absent u values st H).
    split; [apply absent_row_exn_ok | now apply lease_destroy_absent].
  - pose proof (filter_uuid_absent OwnerChange.uuid u (owner_changes st)
                  Habsent) as H.
    rewrite (owner_change_update_absent u values st H).
    split; [apply absent_row_exn_ok | now apply owner_change_destroy_absent].
Qed.

Lemma update_of_absent_row_witness :
  fails_without_not_found
    (OfferValues.start_time OfferValues.empty = None
     \/ OfferValues.end_time OfferValues.empty = None)
    store_two_leases
    (offer_update "some_uuid" OfferValues.empty store_two_leases).
Proof.
  apply (proj1 update_of_absent_row "some_uuid" OfferValues.empty
               store_two_leases).
  simpl. intros o [<- | []]. discriminate.
Defined.

(** * Further properties of the engine *)

(** ** The overlap test on non-empty intervals *)

Lemma overlap3_intersect (start end_ s e : Z) :
  start < end_ -> s < e ->
  (overlap3 start end_ s e <-> intersect (start, end_) (s, e)).
Proof. unfold overlap3, intersect. simpl. lia. Qed.

(** X1. On two non-empty intervals the three-clause filter of the conflict
    queries is the intersection test of half-open intervals
    ([start < e] and [s < end]), and it does not depend on which of the two
    intervals is the candidate. *)
Theorem time_conflict_is_intersection :
  forall start end_ s e : Z,
    start < end_ -> s < e ->
    (time_conflict start end_ s e = true
     <-> intersect (start, end_) (s, e))
    /\ time_conflict s e start end_ = time_conflict start end_ s e.
Proof.
  intros start end_ s e Hw Hi.
  assert (H1 : time_conflict start end_ s e = true
               <-> intersect (start, end_) (s, e)).
  { rewrite time_conflict_iff. now apply overlap3_intersect. }
  assert (H2 : time_conflict s e start end_ = true
               <-> intersect (s, e) (start, end_)).
  { rewrite time_conflict_iff. now apply overlap3_intersect. }
  split; [exact H1|].
  apply eq_true_iff_eq. rewrite H1, H2. unfold intersect. simpl. lia.
Qed.

Lemma time_conflict_is_intersection_witness :
  time_conflict 50 60 45 55 = time_conflict 45 55 50 60.
Proof.
  apply (proj2 (time_conflict_is_intersection 45 55 50 60
                  ltac:(lia) ltac:(lia))).
Defined.

(** ** Pairwise properties of a table *)

Lemma ForallOrdPairs_snoc {A : Type} (R : A -> A -> Prop) (l : list A)
    (x : A) :
  ForallOrdPairs R l -> Forall (fun a => R a x) l ->
  ForallOrdPairs R (l ++ [x]).
Proof.
  induction 1 as [|a l Ha Hl IH]; intros Hx; simpl.
  - repeat constructor.
  - inversion Hx as [|? ? Hax Hlx]; subst. constructor.
    + apply Forall_app. split; [exact Ha | now constructor].
    + now apply IH.
Qed.

Lemma ForallOrdPairs_filter {A : Type} (R : A -> A -> Prop) (p : A -> bool)
    (l : list A) :
  ForallOrdPairs R l -> ForallOrdPairs R (filter p l).
Proof.
  induction 1 as [|a l Ha Hl IH]; simpl; [constructor|].
  destruct (p a); [|exact IH]. constructor; [|exact IH].
  apply Forall_forall. intros b Hb. apply filter_In in Hb.
  rewrite Forall_forall in Ha. now apply Ha.
Qed.

(** ** The arbiter under the invariants of the owner changes *)

(** X2. [resource_check_admin] authorizes a project for a non-empty window
    only in two ways: the project is the [to_owner_id] of a CREATED or
    ACTIVE owner change on the resource whose interval encloses the window,
    or the project is the default admin and no CREATED or ACTIVE owner
    change on the resource shares a point with the window. *)
Theorem resource_check_admin_sound :
  forall (r_type r_uuid : string) (w_start w_end : Z)
         (default_admin project_id : string) (st : store),
    resource_check_admin r_type r_uuid w_start w_end default_admin
                         project_id st = true ->
    w_start < w_end ->
    owner_changes_well_formed (owner_changes st) ->
    (exists c, In c (owner_changes st)
               /\ live_on r_type r_uuid c = true
               /\ OwnerChange.start_time c <= w_start
               /\ w_end <= OwnerChange.end_time c
               /\ project_id = OwnerChange.to_owner_id c)
    \/ (project_id = default_admin
        /\ forall c, In c (owner_changes st) ->
                     live_on r_type r_uuid c = true ->
                     ~ intersect (w_start, w_end)
                                 (OwnerChange.start_time c,
                                  OwnerChange.end_time c)).
Proof.
  intros r_type r_uuid w_start w_end default_admin project_id st Hok Hw Hwf.
  rewrite resource_check_admin_eq in Hok.
  destruct (straddling_changes r_type r_uuid w_start w_end st) eqn:Es;
    [|discriminate].
  destruct (enclosing_changes r_type r_uuid w_start w_end st)
    as [|c [|c' l]] eqn:Ee; [| |discriminate].
  - right. apply String.eqb_eq in Hok. split; [exact Hok|].
    intros c Hin Hlive [H1 H2]. simpl in H1, H2.
    unfold owner_changes_well_formed in Hwf.
    rewrite Forall_forall in Hwf. specialize (Hwf c Hin). simpl in Hwf.
    assert (Hs : straddles w_start w_end (OwnerChange.start_time c)
                           (OwnerChange.end_time c) = false).
    { destruct (straddles _ _ _ _) eqn:E; [|reflexivity].
      assert (Hc : In c (straddling_changes r_type r_uuid w_start w_end st)).
      { apply filter_In. now rewrite Hlive, E. }
      rewrite Es in Hc. contradiction. }
    assert (He : (OwnerChange.start_time c <=? w_start)
                 && (w_end <=? OwnerChange.end_time c) = false).
    { destruct (_ && _) eqn:E; [|reflexivity].
      assert (Hc : In c (enclosing_changes r_type r_uuid w_start w_end st)).
      { apply filter_In. split; [exact Hin|].
        now rewrite <- andb_assoc, Hlive, E. }
      rewrite Ee in Hc. contradiction. }
    apply not_true_iff_false in Hs. rewrite straddles_iff in Hs.
    apply andb_false_iff in He. rewrite !Z.leb_gt in He.
    unfold straddle3 in Hs. lia.
  - left. exists c.
    assert (Hc : In c (enclosing_changes r_type r_uuid w_start w_end st))
      by (rewrite Ee; now left).
    apply filter_In in Hc. destruct Hc as [Hin Hc].
    rewrite !andb_true_iff, !Z.leb_le in Hc.
    apply String.eqb_eq in Hok. tauto.
Qed.

Lemma resource_check_admin_sound_witness :
  (exists c, In c (owner_changes store_oc1)
             /\ live_on "dummy_node" "1111" c = true
             /\ OwnerChange.start_time c <= 11
             /\ 19 <= OwnerChange.end_time c
             /\ "owner2" = OwnerChange.to_owner_id c)
  \/ ("owner2" = "owner1"
      /\ forall c, In c (owner_changes store_oc1) ->
                   live_on "dummy_node" "1111" c = true ->
                   ~ intersect (11, 19)
                               (OwnerChange.start_time c,
                                OwnerChange.end_time c)).
Proof.
  apply (resource_check_admin_sound "dummy_node" "1111" 11 19 "owner1"
                                    "owner2" store_oc1 eq_refl).
  - lia.
  - repeat constructor.
Defined.

(** X3. When the CREATED and ACTIVE owner changes of each resource are
    pairwise disjoint, the second query of [resource_check_admin] for a
    non-empty window finds at most one owner change: the branch
    [ocs.count() > 1] is not reached. *)
Theorem resource_check_admin_at_most_one :
  forall (r_type r_uuid : string) (w_start w_end : Z) (st : store),
    owner_changes_disjoint (owner_changes st) ->
    w_start < w_end ->
    (count (owner_change_get_all
              (OwnerChangeFilters.mk (Some r_type) (Some r_uuid)
                                     (Some w_start) (Some w_end)
                                     (Some [CREATED; ACTIVE]) None) st)
     <= 1)%nat.
Proof.
  intros r_type r_uuid w_start w_end st Hdis Hw.
  rewrite resource_check_admin_encompassing. unfold enclosing_changes.
  pose proof (ForallOrdPairs_filter _
    (fun c => live_on r_type r_uuid c
              && (OwnerChange.start_time c <=? w_start)
              && (w_end <=? OwnerChange.end_time c)) _ Hdis) as Hf.
  set (q := filter _ (owner_changes st)) in *.
  assert (Hq : forall c, In c q ->
                 live_on r_type r_uuid c = true
                 /\ OwnerChange.start_time c <= w_start
                 /\ w_end <= OwnerChange.end_time c).
  { intros c Hc. apply filter_In in Hc. destruct Hc as [_ Hc].
    rewrite !andb_true_iff, !Z.leb_le in Hc. tauto. }
  destruct q as [|a [|b q]]; simpl; [lia | lia | exfalso].
  destruct (Hq a (or_introl eq_refl)) as (Hla & Ha1 & Ha2).
  destruct (Hq b (or_intror (or_introl eq_refl))) as (Hlb & Hb1 & Hb2).
  apply live_on_iff in Hla, Hlb.
  inversion Hf as [|? ? Hab _]; subst.
  inversion Hab as [|? ? Hab' _]; subst.
  apply Hab'; try (apply status_in_created_active; tauto);
    try (transitivity r_uuid; [tauto | symmetry; tauto]);
    try (transitivity r_type; [tauto | symmetry; tauto]).
  unfold intersect. simpl. lia.
Qed.

Lemma resource_check_admin_at_most_one_witness :
  (count (owner_change_get_all
            (OwnerChangeFilters.mk (Some "dummy_node") (Some "1111")
                                   (Some 11%Z) (Some 19%Z)
                                   (Some [CREATED; ACTIVE]) None)
            store_two_owner_changes)
   <= 1)%nat.
Proof.
  apply resource_check_admin_at_most_one.
  - unfold owner_changes_disjoint. simpl.
    repeat constructor. unfold intersect. simpl. lia.
  - lia.
Defined.

(** ** Creation after a successful availability check *)

(** X4. If [resource_verify_availability] with [is_owner_change=True]
    returns for the resource and the non-empty interval of a new owner
    change, then [owner_change_create] of that owner change keeps the
    stored owner changes well formed and the CREATED and ACTIVE ones of
    each resource pairwise disjoint, and leaves offers and leases as they
    are. *)
Theorem owner_change_create_keeps_disjoint :
  forall (c : OwnerChange.t) (st : store),
    owner_changes_disjoint (owner_changes st) ->
    owner_changes_well_formed (owner_changes st) ->
    OwnerChange.start_time c < OwnerChange.end_time c ->
    resource_verify_availability
      (OwnerChange.resource_type c) (OwnerChange.resource_uuid c)
      (OwnerChange.start_time c) (OwnerChange.end_time c) true st
    = Return tt ->
    let st' := snd (owner_change_create c st) in
    owner_changes_disjoint (owner_changes st')
    /\ owner_changes_well_formed (owner_changes st')
    /\ offers st' = offers st /\ leases st' = leases st.
Proof.
  intros c st Hdis Hwf Hc Hok. simpl.
  destruct (resource_verify_availability_cases
              (OwnerChange.resource_type c) (OwnerChange.resource_uuid c)
              (OwnerChange.start_time c) (OwnerChange.end_time c) true st)
    as [[E _] | [_ (_ & _ & Hfree)]]; [congruence|].
  specialize (Hfree eq_refl).
  split; [|split; [|split; reflexivity]].
  - apply ForallOrdPairs_snoc; [exact Hdis|].
    apply Forall_forall. intros a Hin Hla _ Hu Ht Hint.
    apply Hfree. exists a.
    unfold owner_changes_well_formed in Hwf.
    rewrite Forall_forall in Hwf. specialize (Hwf a Hin). simpl in Hwf.
    apply status_in_created_active in Hla.
    repeat split; try assumption.
    apply overlap3_intersect; [exact Hc | exact Hwf |].
    unfold intersect in *. simpl in *. lia.
  - apply Forall_app. split; [exact Hwf | now repeat constructor].
Qed.

Lemma owner_change_create_keeps_disjoint_witness :
  let st' := snd (owner_change_create oc2_data store_oc1) in
  owner_changes_disjoint (owner_changes st')
  /\ owner_changes_well_formed (owner_changes st')
  /\ offers st' = offers store_oc1 /\ leases st' = leases store_oc1.
Proof.
  apply (owner_change_create_keeps_disjoint oc2_data store_oc1).
  - repeat constructor.
  - repeat constructor.
  - simpl. lia.
  - reflexivity.
Defined.

(** X5. If [resource_verify_availability] (with [is_owner_change=False])
    returns for the resource and the non-empty interval of a new offer, then
    [offer_create] of that offer keeps the stored offers well formed and
    the AVAILABLE ones of each resource pairwise disjoint; the new offer
    shares no point with a CREATED or ACTIVE lease on its resource that has
    [start_time < end_time]. *)
Theorem offer_create_keeps_disjoint :
  forall (o : Offer.t) (st : store),
    offers_disjoint (offers st) ->
    offers_well_formed (offers st) ->
    Offer.start_time o < Offer.end_time o ->
    resource_verify_availability
      (Offer.resource_type o) (Offer.resource_uuid o)
      (Offer.start_time o) (Offer.end_time o) false st
    = Return tt ->
    let st' := snd (offer_create o st) in
    offers_disjoint (offers st')
    /\ offers_well_formed (offers st')
    /\ (forall l, In l (leases st') ->
          Lease.resource_uuid l = Offer.resource_uuid o ->
          Lease.resource_type l = Offer.resource_type o ->
          Lease.status l = CREATED \/ Lease.status l = ACTIVE ->
          Lease.start_time l < Lease.end_time l ->
          ~ intersect (Offer.start_time o, Offer.end_time o)
                      (Lease.start_time l, Lease.end_time l)).
Proof.
  intros o st Hdis Hwf Ho Hok. simpl.
  destruct (resource_verify_availability_cases
              (Offer.resource_type o) (Offer.resource_uuid o)
              (Offer.start_time o) (Offer.end_time o) false st)
    as [[E _] | [_ (Hfree_o & Hfree_l & _)]]; [congruence|].
  split; [|split].
  - apply ForallOrdPairs_snoc; [exact Hdis|].
    apply Forall_forall. intros a Hin Hsa _ Hu Ht Hint.
    apply Hfree_o. exists a.
    unfold offers_well_formed in Hwf.
    rewrite Forall_forall in Hwf. specialize (Hwf a Hin). simpl in Hwf.
    repeat split; try assumption.
    apply overlap3_intersect; [exact Ho | exact Hwf |].
    unfold intersect in *. simpl in *. lia.
  - apply Forall_app. split; [exact Hwf | now repeat constructor].
  - intros l Hin Hu Ht Hs Hl Hint. apply Hfree_l. exists l.
    repeat split; try assumption.
    now apply overlap3_intersect.
Qed.

Lemma offer_create_keeps_disjoint_witness :
  let o := Offer.mk "55555" "12345" (Some "ABCDE") "o2" "dummy_node" "1111"
                    105 150 AVAILABLE [("foo", "bar")] in
  let st' := snd (offer_create o store_two_leases) in
  offers_disjoint (offers st')
  /\ offers_well_formed (offers st')
  /\ (forall l, In l (leases st') ->
        Lease.resource_uuid l = Offer.resource_uuid o ->
        Lease.resource_type l = Offer.resource_type o ->
        Lease.status l = CREATED \/ Lease.status l = ACTIVE ->
        Lease.start_time l < Lease.end_time l ->
        ~ intersect (Offer.start_time o, Offer.end_time o)
                    (Lease.start_time l, Lease.end_time l)).
Proof.
  intros o.
  apply (offer_create_keeps_disjoint o store_two_leases).
  - repeat constructor.
  - repeat constructor.
  - simpl. lia.
  - reflexivity.
Defined.

(** ** Lookups after writes *)

Lemma filter_uuid_unique {A : Type} (uuid : A -> string) (u : string)
    (l : list A) :
  NoDup (map uuid l) ->
  filter (fun r => String.eqb (uuid r) u) l = []
  \/ exists r, filter (fun r => String.eqb (uuid r) u) l = [r].
Proof.
  induction l as [|x l IH]; simpl; intros Hnd; [now left|].
  inversion Hnd as [|? ? Hx Hl]; subst.
  destruct (String.eqb_spec (uuid x) u) as [E | _]; [|now apply IH].
  right. exists x. f_equal. apply filter_uuid_absent.
  intros r Hr Hu. apply Hx. rewrite E, <- Hu. now apply in_map.
Qed.



Lemma map_uuid_flush {A : Type} (uuid : A -> string) (u : string) (row : A)
    (l : list A) :
  uuid row = u ->
  map uuid (flush_row (fun r => String.eqb (uuid r) u) row l) = map uuid l.
Proof.
  intros Hrow. induction l as [|x l IH]; simpl; [reflexivity|].
  rewrite IH. f_equal.
  destruct (String.eqb_spec (uuid x) u) as [E | _]; congruence.
Qed.

(** Rows kept by a query have pairwise distinct uuids when the rows of the
    table have. *)
Lemma uuids_unique_filter {Row : Type} (uuid : Row -> string)
    (keep : Row -> bool) :
  forall rows : list Row,
    NoDup (map uuid rows) -> NoDup (map uuid (filter keep rows)).
Proof.
  intros rows. induction rows as [|r rows IH]; simpl; intros Hnd.
  - constructor.
  - apply NoDup_cons_iff in Hnd. destruct Hnd as [Hr Hrows].
    destruct (keep r); simpl; [|exact (IH Hrows)].
    apply NoDup_cons_iff. split; [|exact (IH Hrows)].
    intros Hin. apply Hr. apply in_map_iff in Hin.
    destruct Hin as [r' [Hu Hin]]. apply filter_In in Hin.
    rewrite <- Hu. apply in_map_iff. exists r'. tauto.
Qed.


Lemma store_eta (st : store) :
  mkStore (offers st) (leases st) (owner_changes st) = st.
Proof. now destruct st. Qed.

(** X6. When no two stored offers share a uuid, [offer_get_by_uuid] never
    raises [MultipleResultsFound], and the property is kept by
    [offer_create] of an offer whose uuid is not stored, by [offer_update]
    and by [offer_destroy], whatever their arguments and outcome. *)
Theorem offer_uuids_unique_kept :
  forall st : store,
    offer_uuids_unique st ->
    (forall u, exists r, offer_get_by_uuid u st = Return r)
    /\ (forall o,
          (forall r, In r (offers st) -> Offer.uuid r <> Offer.uuid o) ->
          offer_uuids_unique (snd (offer_create o st)))
    /\ (forall u values, offer_uuids_unique (snd (offer_update u values st)))
    /\ (forall u, offer_uuids_unique (snd (offer_destroy u st))).
Proof.
  intros st Hnd. unfold offer_uuids_unique in *.
  assert (Hone : forall u,
            filter (offer_uuid_is u) (offers st) = []
            \/ exists r, filter (offer_uuid_is u) (offers st) = [r]).
  { intros u. exact (filter_uuid_unique Offer.uuid u (offers st) Hnd). }
  repeat split.
  - intros u. unfold offer_get_by_uuid.
    destruct (Hone u) as [E | [r E]]; rewrite E; simpl; eauto.
  - intros o Hfresh. simpl. rewrite map_app. simpl.
    apply NoDup_app; [exact Hnd | repeat constructor; intros [] |].
    intros a Ha [<- | []]. apply in_map_iff in Ha.
    destruct Ha as [r [Hr Hin]]. exact (Hfresh r Hin Hr).
  - intros u values. destruct (Hone u) as [E | [r E]].
    + now rewrite (offer_update_absent u values st E).
    + rewrite (offer_update_found u values st r E). cbv zeta.
      destruct (_ >=? _); simpl; [exact Hnd|].
      unfold offer_uuid_is. rewrite map_uuid_flush; [exact Hnd|].
      simpl. assert (Hr : In r (filter (offer_uuid_is u) (offers st)))
        by (rewrite E; now left).
      apply filter_In in Hr. now apply String.eqb_eq.
  - intros u. destruct (Hone u) as [E | [r E]].
    + now rewrite (offer_destroy_absent u st E).
    + rewrite (offer_destroy_found u st r E). simpl.
      now apply uuids_unique_filter.
Qed.

Lemma offer_uuids_unique_kept_witness :
  offer_uuids_unique
    (snd (offer_update "11111" OfferValues.empty store_two_leases)).
Proof.
  apply (proj1 (proj2 (proj2 (offer_uuids_unique_kept store_two_leases
                                ltac:(repeat constructor; intros []))))).
Defined.

(** X7. After [offer_create] of an offer whose uuid is not stored,
    [offer_get_by_uuid] of that uuid returns the offer, the lookup of every
    other uuid is as before, and [offer_destroy] of that uuid returns and
    restores the store. *)
Theorem offer_create_lookup_destroy :
  forall (o : Offer.t) (st : store),
    (forall r, In r (offers st) -> Offer.uuid r <> Offer.uuid o) ->
    let st' := snd (offer_create o st) in
    offer_get_by_uuid (Offer.uuid o) st' = Return (Some o)
    /\ (forall u, u <> Offer.uuid o ->
          offer_get_by_uuid u st' = offer_get_by_uuid u st)
    /\ offer_destroy (Offer.uuid o) st' = (Return tt, st).
Proof.
  intros o st Hfresh. simpl.
  pose proof (filter_uuid_absent Offer.uuid (Offer.uuid o) (offers st)
                Hfresh) as Habs.
  assert (Hfound :
    filter (offer_uuid_is (Offer.uuid o)) (offers st ++ [o]) = [o]).
  { rewrite filter_app. unfold offer_uuid_is at 1. rewrite Habs. simpl.
    unfold offer_uuid_is. now rewrite String.eqb_refl. }
  split; [|split].
  - unfold offer_get_by_uuid. simpl. now rewrite Hfound.
  - intros u Hu. unfold offer_get_by_uuid. simpl. rewrite filter_app. simpl.
    unfold offer_uuid_is at 2.
    destruct (String.eqb_spec (Offer.uuid o) u) as [E | _];
      [congruence | now rewrite app_nil_r].
  - rewrite (offer_destroy_found
               (Offer.uuid o)
               (mkStore (offers st ++ [o]) (leases st) (owner_changes st))
               o Hfound). simpl.
    f_equal. rewrite <- (store_eta st) at 4. f_equal.
    rewrite filter_app. simpl. unfold offer_uuid_is at 2.
    rewrite String.eqb_refl. simpl. rewrite app_nil_r.
    apply forallb_filter_id. apply forallb_forall. intros r Hr.
    unfold offer_uuid_is. apply negb_true_iff, String.eqb_neq.
    now apply Hfresh.
Qed.

Lemma offer_create_lookup_destroy_witness :
  let st' := snd (offer_create test_offer_1 store_oc1) in
  offer_get_by_uuid (Offer.uuid test_offer_1) st' = Return (Some test_offer_1)
  /\ (forall u, u <> Offer.uuid test_offer_1 ->
        offer_get_by_uuid u st' = offer_get_by_uuid u store_oc1)
  /\ offer_destroy (Offer.uuid test_offer_1) st' = (Return tt, store_oc1).
Proof.
  apply (offer_create_lookup_destroy test_offer_1 store_oc1).
  simpl. intros r [].
Defined.







(** ** Filters of [owner_change_get_all] *)

(** X10. [owner_change_get_all] returns stored owner changes only, and all
    of them for empty filters.  A [status] filter that is an empty list, a
    time filter of which only one bound is given, and a
    [from_or_to_owner_id] that is the empty string are ignored: the result
    is that of the filters without them. *)
Theorem owner_change_get_all_ignored_filters :
  forall (f : OwnerChangeFilters.t) (st : store),
    incl (owner_change_get_all f st) (owner_changes st)
    /\ owner_change_get_all OwnerChangeFilters.empty st = owner_changes st
    /\ (OwnerChangeFilters.status f = Some [] ->
        owner_change_get_all f st
        = owner_change_get_all
            (OwnerChangeFilters.mk
               (OwnerChangeFilters.resource_type f)
               (OwnerChangeFilters.resource_uuid f)
               (OwnerChangeFilters.start_time f)
               (OwnerChangeFilters.end_time f)
               None
               (OwnerChangeFilters.from_or_to_owner_id f)) st)
    /\ (OwnerChangeFilters.start_time f = None
        \/ OwnerChangeFilters.end_time f = None ->
        owner_change_get_all f st
        = owner_change_get_all
            (OwnerChangeFilters.mk
               (OwnerChangeFilters.resource_type f)
               (OwnerChangeFilters.resource_uuid f)
               None None
               (OwnerChangeFilters.status f)
               (OwnerChangeFilters.from_or_to_owner_id f)) st)
    /\ (OwnerChangeFilters.from_or_to_owner_id f = Some "" ->
        owner_change_get_all f st
        = owner_change_get_all
            (OwnerChangeFilters.mk
               (OwnerChangeFilters.resource_type f)
               (OwnerChangeFilters.resource_uuid f)
               (OwnerChangeFilters.start_time f)
               (OwnerChangeFilters.end_time f)
               (OwnerChangeFilters.status f)
               None) st).
Proof.
  intros [rt ru s e stt id] st. unfold owner_change_get_all. simpl.
  split; [|split; [reflexivity|split; [|split]]].
  - intros c Hc.
    assert (Hby : forall (col : OwnerChange.t -> string) v q,
              In c (filter_by col v q) -> In c q).
    { intros col [x|] q H; simpl in H; [|exact H].
      apply filter_In in H. tauto. }
    destruct id as [i|]; [destruct (String.eqb i "")|];
      try (apply filter_In in Hc; destruct Hc as [Hc _]);
      (destruct s as [s0|]; [destruct e as [e0|]|];
       try (apply filter_In in Hc; destruct Hc as [Hc _]));
      (destruct stt as [[|a l]|];
       try (apply filter_In in Hc; destruct Hc as [Hc _]));
      exact (Hby _ _ _ (Hby _ _ _ Hc)).
  - intros ->. reflexivity.
  - intros [-> | ->]; [reflexivity|]. now destruct s.
  - intros ->. reflexivity.
Qed.

Lemma owner_change_get_all_ignored_filters_witness :
  owner_change_get_all
    (OwnerChangeFilters.mk None None None None (Some []) None)
    store_two_owner_changes
  = owner_change_get_all OwnerChangeFilters.empty store_two_owner_changes.
Proof.
  apply (proj1 (proj2 (proj2 (owner_change_get_all_ignored_filters
                                (OwnerChangeFilters.mk None None None None
                                                       (Some []) None)
                                store_two_owner_changes)))).
  reflexivity.
Defined.

(** ** Conflict times of an offer *)

Lemma insert_by_perm {A : Type} (key : A -> Z) (x : A) (l : list A) :
  Permutation (insert_by key x l) (x :: l).
Proof.
  induction l as [|y l IH]; simpl; [reflexivity|].
  destruct (key x <=? key y); [reflexivity|].
  rewrite IH. apply perm_swap.
Qed.

Lemma order_by_perm {A : Type} (key : A -> Z) (l : list A) :
  Permutation (order_by key l) l.
Proof.
  induction l as [|x l IH]; simpl; [reflexivity|].
  rewrite insert_by_perm. now constructor.
Qed.

Lemma filter_perm {A : Type} (p : A -> bool) (l l' : list A) :
  Permutation l l' -> Permutation (filter p l) (filter p l').
Proof.
  induction 1 as [|x l l' H IH|x y l|l l' l'' H1 IH1 H2 IH2]; simpl.
  - reflexivity.
  - destruct (p x); [now constructor | exact IH].
  - destruct (p x), (p y); try reflexivity. apply perm_swap.
  - now transitivity (filter p l').
Qed.

Lemma filter_map_const {A B : Type} (p : A -> bool) (x : A) (l : list B) :
  filter p (map (fun _ => x) l) = if p x then map (fun _ => x) l else [].
Proof.
  induction l as [|y l IH]; simpl; [now destruct (p x)|].
  rewrite IH. now destruct (p x).
Qed.

Lemma flat_map_singleton {A : Type} (l : list A) :
  flat_map (fun x => [x]) l = l.
Proof. induction l as [|x l IH]; simpl; congruence. Qed.

Lemma join_offer_filter (u : string) (ls : list Lease.t)
    (os : list Offer.t) :
  filter (blocks_offer u) (join_offer ls os)
  = flat_map (fun l => map (fun _ => l) (filter (offer_uuid_is u) os))
             (filter (blocks_offer u) ls).
Proof.
  unfold join_offer.
  induction ls as [|l ls IH]; simpl; [reflexivity|].
  rewrite filter_app, IH, filter_map_const.
  destruct (blocks_offer u l) eqn:E; simpl; [|reflexivity].
  f_equal. f_equal. apply filter_ext. intros o.
  unfold blocks_offer in E. apply andb_true_iff in E. destruct E as [E _].
  apply null_eqb_eq in E. rewrite E. simpl. unfold offer_uuid_is.
  apply String.eqb_sym.
Qed.

(** X11. [offer_get_conflict_times] returns its intervals ascending by
    start.  When exactly one stored offer has the uuid of [offer_ref], they
    are the intervals of the CREATED and ACTIVE leases of that offer, each
    once; when no stored offer has that uuid, the join leaves none. *)
Theorem offer_get_conflict_times_sorted_perm :
  forall (offer_ref : Offer.t) (st : store),
    sorted_by_start (offer_get_conflict_times offer_ref st)
    /\ (filter (offer_uuid_is (Offer.uuid offer_ref)) (offers st) = [] ->
        offer_get_conflict_times offer_ref st = [])
    /\ (forall o,
          filter (offer_uuid_is (Offer.uuid offer_ref)) (offers st) = [o] ->
          Permutation
            (offer_get_conflict_times offer_ref st)
            (map (fun l => (Lease.start_time l, Lease.end_time l))
                 (filter (blocks_offer (Offer.uuid offer_ref))
                         (leases st)))).
Proof.
  intros offer_ref st.
  split; [apply offer_get_conflict_times_sorted|].
  assert (Hperm :
    Permutation
      (offer_get_conflict_times offer_ref st)
      (map (fun l => (Lease.start_time l, Lease.end_time l))
           (filter (blocks_offer (Offer.uuid offer_ref))
                   (join_offer (leases st) (offers st))))).
  { unfold offer_get_conflict_times. apply Permutation_map.
    apply filter_perm, order_by_perm. }
  rewrite join_offer_filter in Hperm. split.
  - intros E. rewrite E in Hperm. simpl in Hperm.
    replace (flat_map (fun _ : Lease.t => [])
                      (filter (blocks_offer (Offer.uuid offer_ref))
                              (leases st)))
      with (@nil Lease.t) in Hperm
      by (induction (filter _ (leases st)); simpl; auto).
    simpl in Hperm. apply Permutation_sym in Hperm.
    now apply Permutation_nil in Hperm.
  - intros o E. rewrite E in Hperm. simpl in Hperm.
    replace (flat_map (fun l : Lease.t => [l])
                      (filter (blocks_offer (Offer.uuid offer_ref))
                              (leases st)))
      with (filter (blocks_offer (Offer.uuid offer_ref)) (leases st))
      in Hperm; [exact Hperm|].
    symmetry. apply flat_map_singleton.
Qed.

Lemma offer_get_conflict_times_sorted_perm_witness :
  Permutation
    (offer_get_conflict_times test_offer_1 store_offer_1)
    (map (fun l => (Lease.start_time l, Lease.end_time l))
         (filter (blocks_offer (Offer.uuid test_offer_1))
                 (leases store_offer_1))).
Proof.
  apply (proj2 (proj2 (offer_get_conflict_times_sorted_perm
                         test_offer_1 store_offer_1)) test_offer_1).
  reflexivity.
Defined.

Lemma offer_verify_availability_returns_iff (offer_ref : Offer.t)
    (start end_ : Z) (st : store) :
  offer_verify_availability offer_ref start end_ st = Return tt
  <-> Offer.start_time offer_ref <= start
      /\ end_ <= Offer.end_time offer_ref
      /\ forall l, In l (leases st) ->
                   blocks_offer (Offer.uuid offer_ref) l = true ->
                   time_conflict start end_ (Lease.start_time l)
                                 (Lease.end_time l) = false.
Proof.
  unfold offer_verify_availability.
  destruct ((start <? Offer.start_time offer_ref)
            || (end_ >? Offer.end_time offer_ref)) eqn:Eb.
  - rewrite orb_true_iff, Z.ltb_lt, Z.gtb_lt in Eb.
    split; [discriminate | lia].
  - rewrite orb_false_iff, Z.ltb_ge, Z.gtb_ltb, Z.ltb_ge in Eb.
    fold (blocks_offer (Offer.uuid offer_ref)).
    destruct (truthy (first (filter _ (filter _ (leases st))))) eqn:Et.
    + split; [discriminate|]. intros (_ & _ & H). exfalso.
      apply truthy_first_filter in Et. destruct Et as [l [Hl Hc]].
      apply filter_In in Hl. destruct Hl as [Hl Hb].
      rewrite (H l Hl Hb) in Hc. discriminate.
    + split; [intros _ | reflexivity].
      repeat split; try lia. intros l Hl Hb.
      rewrite truthy_first_filter_false in Et. apply Et.
      apply filter_In. now split.
Qed.

(** X12. When exactly one stored offer has the uuid of [offer_ref],
    [offer_verify_availability] returns for a window if and only if the
    window lies within [offer_ref]'s interval and conflicts with none of
    the intervals [offer_get_conflict_times] lists for it. *)
Theorem offer_verify_availability_conflict_times :
  forall (offer_ref o : Offer.t) (start end_ : Z) (st : store),
    filter (offer_uuid_is (Offer.uuid offer_ref)) (offers st) = [o] ->
    (offer_verify_availability offer_ref start end_ st = Return tt
     <-> Offer.start_time offer_ref <= start
         /\ end_ <= Offer.end_time offer_ref
         /\ Forall (fun i => time_conflict start end_ (fst i) (snd i) = false)
                   (offer_get_conflict_times offer_ref st)).
Proof.
  intros offer_ref o start end_ st Hone.
  rewrite offer_verify_availability_returns_iff.
  assert (Hperm :
    Permutation
      (offer_get_conflict_times offer_ref st)
      (map (fun l => (Lease.start_time l, Lease.end_time l))
           (filter (blocks_offer (Offer.uuid offer_ref)) (leases st)))).
  { unfold offer_get_conflict_times. fold (blocks_offer (Offer.uuid offer_ref)).
    transitivity
      (map (fun l => (Lease.start_time l, Lease.end_time l))
           (filter (blocks_offer (Offer.uuid offer_ref))
                   (join_offer (leases st) (offers st)))).
    - apply Permutation_map, filter_perm, order_by_perm.
    - rewrite join_offer_filter, Hone. simpl.
      now rewrite flat_map_singleton. }
  assert (HF :
    Forall (fun i => time_conflict start end_ (fst i) (snd i) = false)
           (offer_get_conflict_times offer_ref st)
    <-> forall l, In l (leases st) ->
                  blocks_offer (Offer.uuid offer_ref) l = true ->
                  time_conflict start end_ (Lease.start_time l)
                                (Lease.end_time l) = false).
  { split.
    - intros H l Hl Hb.
      apply (Permutation_Forall Hperm) in H. rewrite Forall_forall in H.
      apply (H (Lease.start_time l, Lease.end_time l)).
      apply in_map_iff. exists l. split; [reflexivity|].
      apply filter_In. now split.
    - intros H. apply (Permutation_Forall (Permutation_sym Hperm)).
      apply Forall_forall. intros i Hi. apply in_map_iff in Hi.
      destruct Hi as [l [<- Hl]]. apply filter_In in Hl. simpl.
      now apply H. }
  rewrite HF. tauto.
Qed.

Lemma offer_verify_availability_conflict_times_witness :
  offer_verify_availability test_offer_1 30 50 store_offer_1 = Return tt
  <-> Offer.start_time test_offer_1 <= 30
      /\ 50 <= Offer.end_time test_offer_1
      /\ Forall (fun i => time_conflict 30 50 (fst i) (snd i) = false)
                (offer_get_conflict_times test_offer_1 store_offer_1).
Proof.
  apply (offer_verify_availability_conflict_times
           test_offer_1 test_offer_1 30 50 store_offer_1).
  reflexivity.
Defined.

(** ** A claim that starts within a lease *)

(** X13. When a claim request omits [end_time] and its start time lies
    within a CREATED or ACTIVE lease of the offer or at that lease's end
    ([lease.start_time <= start <= lease.end_time]), the [end_time] the
    controller resolves is not after the claim's [start_time]: the window
    handed to the lease is empty or inverted. *)
Theorem claim_within_lease_inverted :
  forall (now : Z) (request_project_id new_uuid : string) (offer : Offer.t)
         (new_lease : LeaseValues.t) (st : store) (l : Lease.t),
    LeaseValues.end_time new_lease = None ->
    In l (leases st) ->
    Lease.offer_uuid l = Some (Offer.uuid offer) ->
    Lease.status l = CREATED \/ Lease.status l = ACTIVE ->
    Lease.start_time l <= claim_start now new_lease <= Lease.end_time l ->
    exists end_time,
      LeaseValues.end_time
        (claim_lease_dict now request_project_id new_uuid offer new_lease st)
      = Some end_time
      /\ LeaseValues.start_time
           (claim_lease_dict now request_project_id new_uuid offer new_lease
                             st)
         = Some (claim_start now new_lease)
      /\ end_time <= claim_start now new_lease.
Proof.
  intros now request_project_id new_uuid offer new_lease st l Hend Hin Hu Hs
         Hw.
  unfold claim_lease_dict. simpl. rewrite Hend.
  fold (claim_start now new_lease).
  unfold Offer_get_first_availability.
  pose proof (offer_get_first_availability_spec
                (Offer.uuid offer) (claim_start now new_lease) st) as H.
  assert (Hocc : occupies_from (Offer.uuid offer)
                               (claim_start now new_lease) st l).
  { unfold occupies_from. repeat split; try assumption. lia. }
  destruct (offer_get_first_availability _ _ st) as [q|].
  - destruct H as [l0 [[_ Hmin] ->]]. eexists. repeat split.
    specialize (Hmin l Hocc). lia.
  - exfalso. exact (H l Hocc).
Qed.

Lemma claim_within_lease_inverted_witness :
  exists end_time,
    LeaseValues.end_time
      (claim_lease_dict 20 "1e5533" "44444" test_offer_1 LeaseValues.empty
                        store_offer_1)
    = Some end_time
    /\ LeaseValues.start_time
         (claim_lease_dict 20 "1e5533" "44444" test_offer_1 LeaseValues.empty
                           store_offer_1)
       = Some (claim_start 20 LeaseValues.empty)
    /\ end_time <= claim_start 20 LeaseValues.empty.
Proof.
  apply (claim_within_lease_inverted
           20 "1e5533" "44444" test_offer_1 LeaseValues.empty store_offer_1
           test_lease_1 eq_refl).
  - simpl. tauto.
  - reflexivity.
  - now left.
  - vm_compute. split; discriminate.
Defined.

(** ** Listing offers and leases *)

Lemma drop_unavailable_In (a_start a_end : Z) (st : store)
    (rows : list Offer.t) :
  forall (query : list Offer.t) (o : Offer.t),
    In o (fold_left (drop_unavailable a_start a_end st) rows query)
    <-> In o query
        /\ forall o', In o' rows -> Offer.uuid o' = Offer.uuid o ->
                      offer_verify_availability o' a_start a_end st
                      = Return tt.
Proof.
  induction rows as [|x rows IH]; intros query o; simpl.
  - intuition.
  - rewrite IH. unfold drop_unavailable.
    destruct (offer_verify_availability x a_start a_end st) as [[]|e] eqn:E.
    + split.
      * intros [Hq H]. split; [exact Hq|].
        intros o' [<- | Ho'] Hu; [exact E | now apply H].
      * intros [Hq H]. split; [exact Hq|]. intros o' Ho'. apply H. now right.
    + rewrite filter_In, negb_true_iff, String.eqb_neq. split.
      * intros [[Hq Hne] H]. split; [exact Hq|].
        intros o' [<- | Ho'] Hu; [congruence | now apply H].
      * intros [Hq H]. split; [split; [exact Hq|] |].
        -- intros Hu. specialize (H x (or_introl eq_refl) (eq_sym Hu)).
           congruence.
        -- intros o' Ho'. apply H. now right.
Qed.

(** X14. With [available_start_time] and [available_end_time] given,
    [offer_get_all] returns an offer if and only if the same filters
    without the two keys return it and [offer_verify_availability] returns
    for the window on every offer of its uuid that they return; so each
    offer returned is available for the whole window. *)
Theorem offer_get_all_available :
  forall (tree : string -> list string) (f : OfferFilters.t) (st : store)
         (a_start a_end : Z) (o : Offer.t),
    OfferFilters.available_start_time f = Some a_start ->
    OfferFilters.available_end_time f = Some a_end ->
    (In o (offer_get_all tree f st)
     <-> In o (offer_get_all tree (OfferFilters.without_availability f) st)
         /\ forall o',
              In o' (offer_get_all tree (OfferFilters.without_availability f)
                                   st) ->
              Offer.uuid o' = Offer.uuid o ->
              offer_verify_availability o' a_start a_end st = Return tt).
Proof.
  intros tree [p rt ru s le ts te ty a b] st a_start a_end o Ha Hb.
  simpl in Ha, Hb. subst a b.
  unfold offer_get_all. simpl.
  destruct ts, te; apply drop_unavailable_In.
Qed.

Lemma offer_get_all_available_witness :
  let f := OfferFilters.mk None None None (Some AVAILABLE) None None None None
                           (Some 30) (Some 50) in
  In test_offer_1 (offer_get_all (fun _ => []) f store_offer_1)
  <-> In test_offer_1
         (offer_get_all (fun _ => []) (OfferFilters.without_availability f)
                        store_offer_1)
      /\ forall o',
           In o' (offer_get_all (fun _ => [])
                                (OfferFilters.without_availability f)
                                store_offer_1) ->
           Offer.uuid o' = Offer.uuid test_offer_1 ->
           offer_verify_availability o' 30 50 store_offer_1 = Return tt.
Proof.
  intros f.
  apply (offer_get_all_available (fun _ => []) f store_offer_1 30 50
                                 test_offer_1 eq_refl eq_refl).
Defined.

Lemma offer_get_all_incl_lessee (tree : string -> list string)
    (f : OfferFilters.t) (st : store) (id : string) (o : Offer.t) :
  OfferFilters.lessee_id f = Some id -> id <> "" ->
  In o (offer_get_all tree f st) ->
  In o (offers st) /\ lessee_may_see id (tree id) o = true.
Proof.
  destruct f as [p rt ru s le ts te ty a b]. simpl. intros -> Hid.
  unfold offer_get_all. simpl.
  apply String.eqb_neq in Hid. rewrite Hid.
  intros H.
  assert (H1 : In o (filter (lessee_may_see id (tree id))
     (filter_by_status s
        (filter_by Offer.resource_uuid ru
           (filter_by Offer.resource_type rt
              (filter_by Offer.project_id p (offers st))))))).
  { (destruct a as [a0|], b as [b0|];
       [apply drop_unavailable_In in H; destruct H as [H _]
       | idtac | idtac | idtac]);
      (destruct ts as [t0|], te as [t1|];
       [apply filter_In in H; destruct H as [H _] | idtac | idtac | idtac]);
      exact H. }
  apply filter_In in H1. destruct H1 as [H1 Hsee]. split; [|exact Hsee].
  assert (Hby : forall (col : Offer.t -> string) v q,
            In o (filter_by col v q) -> In o q).
  { intros col [x|] q Hq; simpl in Hq; [|exact Hq].
    apply filter_In in Hq. tauto. }
  destruct s as [s0|]; simpl in H1;
    try (apply filter_In in H1; destruct H1 as [H1 _]);
    exact (Hby _ _ _ (Hby _ _ _ (Hby _ _ _ H1))).
Qed.

(** X15. With a non-empty [lessee_id] filter, whatever the other filters,
    every offer [offer_get_all] returns is stored and is owned by the
    lessee, or has no [lessee_id], or has a [lessee_id] in the project tree
    of the lessee: an offer restricted to a project outside that tree is
    not returned to a lessee who does not own it. *)
Theorem offer_get_all_lessee :
  forall (tree : string -> list string) (f : OfferFilters.t) (st : store)
         (id : string) (o : Offer.t),
    OfferFilters.lessee_id f = Some id -> id <> "" ->
    In o (offer_get_all tree f st) ->
    In o (offers st)
    /\ (Offer.project_id o = id
        \/ Offer.lessee_id o = None
        \/ exists x, Offer.lessee_id o = Some x /\ In x (tree id)).
Proof.
  intros tree f st id o Hf Hid Hin.
  destruct (offer_get_all_incl_lessee tree f st id o Hf Hid Hin)
    as [Hstored Hsee].
  split; [exact Hstored|].
  unfold lessee_may_see in Hsee.
  rewrite !orb_true_iff, String.eqb_eq in Hsee.
  destruct Hsee as [[H | H] | H]; [now left | |].
  - right. left. now destruct (Offer.lessee_id o).
  - right. right. destruct (Offer.lessee_id o) as [x|]; [|discriminate].
    exists x. split; [reflexivity|].
    apply existsb_exists in H. destruct H as [y [Hy Hxy]].
    apply String.eqb_eq in Hxy. now subst.
Qed.

Lemma offer_get_all_lessee_witness :
  let f := OfferFilters.mk None None None None (Some "12345") None None None
                           None None in
  In test_offer_1 (offers store_offer_1)
  /\ (Offer.project_id test_offer_1 = "12345"
      \/ Offer.lessee_id test_offer_1 = None
      \/ exists x, Offer.lessee_id test_offer_1 = Some x
                   /\ In x ["12345"; "67890"]).
Proof.
  intros f.
  apply (offer_get_all_lessee (fun _ => ["12345"; "67890"]) f store_offer_1
                              "12345" test_offer_1 eq_refl).
  - discriminate.
  - simpl. now left.
Defined.

Lemma time_filter_modes (start end_ s e : Z) :
  start <= end_ -> s <= e ->
  (time_filter (Some "within") start end_ s e = true
   \/ time_filter None start end_ s e = true
   <-> s <= end_ /\ start <= e).
Proof.
  intros Hw Hi. unfold time_filter. simpl.
  rewrite !orb_true_iff, !andb_true_iff.
  rewrite !Z.geb_le, !Z.leb_le. lia.
Qed.

(** X16. For a window with [start <= end] and a lease with
    [start_time <= end_time], [lease_get_all] returns the lease under the
    time filter of type ['within'] or under the default time filter if and
    only if it returns it without time filter and the closed intervals
    meet ([lease.start_time <= end] and [start <= lease.end_time]);
    ['within'] alone returns the leases with an end point in the closed
    window. *)
Theorem lease_get_all_time_filters :
  forall (f : LeaseFilters.t) (st : store) (start end_ : Z) (l : Lease.t),
    start <= end_ ->
    Lease.start_time l <= Lease.end_time l ->
    (In l (lease_get_all
             (LeaseFilters.with_times f (Some start) (Some end_)
                                      (Some "within")) st)
     \/ In l (lease_get_all
                (LeaseFilters.with_times f (Some start) (Some end_) None) st)
     <-> In l (lease_get_all (LeaseFilters.with_times f None None None) st)
         /\ Lease.start_time l <= end_ /\ start <= Lease.end_time l)
    /\ (In l (lease_get_all
                (LeaseFilters.with_times f (Some start) (Some end_)
                                         (Some "within")) st)
        <-> In l (lease_get_all (LeaseFilters.with_times f None None None) st)
            /\ (start <= Lease.start_time l <= end_
                \/ start <= Lease.end_time l <= end_)).
Proof.
  intros [cols ts te ty stt id] st start end_ l Hw Hl.
  unfold lease_get_all, LeaseFilters.with_times. simpl.
  set (q := match stt with
            | Some (s :: l0) => filter _ _
            | _ => fold_left _ cols (leases st)
            end).
  pose proof (time_filter_modes start end_ (Lease.start_time l)
                                (Lease.end_time l) Hw Hl) as Hmodes.
  assert (Hwithin :
    time_filter (Some "within") start end_ (Lease.start_time l)
                (Lease.end_time l) = true
    <-> start <= Lease.start_time l <= end_
        \/ start <= Lease.end_time l <= end_).
  { unfold time_filter. simpl.
    rewrite !orb_true_iff, !andb_true_iff, !Z.geb_le, !Z.leb_le. lia. }
  destruct id as [i|]; [destruct (String.eqb i "")|];
    rewrite ?filter_In; tauto.
Qed.

Lemma lease_get_all_time_filters_witness :
  In test_lease_2
     (lease_get_all (LeaseFilters.mk [] (Some 19) (Some 21) (Some "within")
                                     None None) store_offer_1)
  <-> In test_lease_2
         (lease_get_all (LeaseFilters.mk [] None None None None None)
                        store_offer_1)
      /\ (19 <= Lease.start_time test_lease_2 <= 21
          \/ 19 <= Lease.end_time test_lease_2 <= 21).
Proof.
  apply (proj2 (lease_get_all_time_filters
                  (LeaseFilters.mk [] None None None None None)
                  store_offer_1 19 21 test_lease_2
                  ltac:(lia) ltac:(simpl; lia))).
Defined.
